(** * Media file binding ([wandb/data_types/_media.py])

    A shallow embedding of the [Media] class: attaching a staged file
    ([_set_file]), binding it to a run ([bind_to_run]), serialising it for a
    run or an artifact ([to_json]), equality ([__eq__] and the operator
    [==]), the static [captions] helper and [from_json], together with the
    properties the specification states about them and further properties
    of the methods: what they raise, what they leave unchanged, and how
    they compose.

    Conventions of the embedding.
    - An attribute that [__init__] does not assign ([_is_tmp], [_extension],
      [_sha256], [_size]) is an [option]: [None] is "attribute absent", and
      reading it raises [AttributeError].
    - A method is a computation in the monad [M]: it threads the receiver
      and the world (file system, callback log, artifacts) and either
      returns or raises; what was assigned before a [raise] stays assigned.
    - [os.path] is [posixpath]. The file system holds regular files, each
      under a canonical name; which file a path names ([realpath]) is for
      the file system to say, and is part of the world: two spellings of
      one path, a relative and an absolute path, a path through a link to
      a directory may all name the same file. A path that a method opens,
      copies or moves names a regular file or nothing, never a directory;
      directories are recorded only as the set of directories created. A
      file operation fails as said at its definition (the file is missing,
      or is copied onto itself); the other failures of an operating system
      (permissions, space, names it refuses) are outside the embedding.
    - A global name is looked up in the namespace the module has once it is
      imported ([module_globals]). The module imports [Run], [Artifact] and
      [PublicArtifact] under [if TYPE_CHECKING:] only, and
      [typing.TYPE_CHECKING] is [False] when the program runs.
    - An [assert] statement is executed when [__debug__] is true, and is
      absent under [python -O].
    - The collaborators that are not part of the module ([Artifact],
      [WBValue], [wandb.util], [wandb._globals]) are modelled from the
      specification or taken as parameters, as said at each definition. *)

From Stdlib Require Import ZArith List Ascii String DecimalString.
From Stdlib Require DecimalZ DecimalPos.
From stdpp Require Import gmap strings list fin_maps finite.

Local Open Scope string_scope.
Local Open Scope Z_scope.

(** ** Python strings *)

Module PyStr.

Definition sep : ascii := "/"%char.
Definition extsep : ascii := "."%char.

(** [s[:n]] *)
Fixpoint take (n : nat) (s : string) : string :=
  match n, s with
  | S n', String c r => String c (take n' r)
  | _, _ => EmptyString
  end.

(** [s[n:]] *)
Fixpoint drop (n : nat) (s : string) : string :=
  match n, s with
  | S n', String _ r => drop n' r
  | _, _ => s
  end.

(** [s.startswith(p)] *)
Fixpoint startswith (s p : string) : bool :=
  match p, s with
  | EmptyString, _ => true
  | String a p', String b s' => Ascii.eqb a b && startswith s' p'
  | String _ _, EmptyString => false
  end.

(** [s.endswith(p)]: [p] occurs at offset [len(s) - len(p)]. *)
Definition endswith (s p : string) : bool :=
  (String.length p <=? String.length s)%nat
  && String.eqb (drop (String.length s - String.length p) s) p.

(** [s.lstrip(c)] for a one-character argument. *)
Fixpoint lstrip (c : ascii) (s : string) : string :=
  match s with
  | String a r => if Ascii.eqb a c then lstrip c r else s
  | EmptyString => EmptyString
  end.

(** [s.rfind(c)]: the highest index of [c], or [-1]. *)
Fixpoint rfind_from (c : ascii) (s : string) (i acc : Z) : Z :=
  match s with
  | EmptyString => acc
  | String a r => rfind_from c r (i + 1) (if Ascii.eqb a c then i else acc)
  end.

Definition rfind (c : ascii) (s : string) : Z := rfind_from c s 0 (-1).

(** [s.split(c)]: never empty. *)
Fixpoint split (c : ascii) (s : string) : list string :=
  match s with
  | EmptyString => [EmptyString]
  | String a r =>
      if Ascii.eqb a c then EmptyString :: split c r
      else match split c r with
           | x :: xs => String a x :: xs
           | [] => [String a EmptyString]
           end
  end.

(** [c in s] for a character. *)
Fixpoint contains (c : ascii) (s : string) : bool :=
  match s with
  | EmptyString => false
  | String a r => Ascii.eqb a c || contains c r
  end.

(** [str(n)] for an [int]. *)
Definition of_int (n : Z) : string := NilZero.string_of_int (Z.to_int n).

End PyStr.

(** ** [posixpath] *)

Module PosixPath.
Import PyStr.

Definition isabs (p : string) : bool := startswith p "/".

(** One step of the loop of [join]: [path] extended by the component [b]. *)
Definition join2 (path b : string) : string :=
  if startswith b "/" then b
  else if String.eqb path "" || endswith path "/" then path ++ b
  else path ++ "/" ++ b.

(** [os.path.join(a, *p)] *)
Definition join (a : string) (p : list string) : string := fold_left join2 p a.

(** [os.path.basename(p)]: [i = p.rfind('/') + 1; p[i:]] *)
Definition basename (p : string) : string :=
  let i := rfind sep p + 1 in drop (Z.to_nat i) p.

Fixpoint rstrip_rev (c : ascii) (rs : list ascii) : list ascii :=
  match rs with
  | a :: r => if Ascii.eqb a c then rstrip_rev c r else rs
  | [] => []
  end.

(** [s.rstrip(c)] for a one-character argument. *)
Definition rstrip (c : ascii) (s : string) : string :=
  string_of_list_ascii
    (rev (rstrip_rev c (rev (list_ascii_of_string s)))).

(** [os.path.dirname(p)] *)
Definition dirname (p : string) : string :=
  let i := rfind sep p + 1 in
  let head := take (Z.to_nat i) p in
  if negb (String.eqb head "") && negb (String.eqb (lstrip sep head) "")
  then rstrip sep head else head.

(** The loop of [genericpath._splitext] that skips leading dots: is there
    a character other than [extsep] in [p[filenameIndex:dotIndex]]? *)
Fixpoint has_non_dot (s : string) : bool :=
  match s with
  | EmptyString => false
  | String a r => negb (Ascii.eqb a extsep) || has_non_dot r
  end.

(** [os.path.splitext(p)] *)
Definition splitext (p : string) : string * string :=
  let sepIndex := rfind sep p in
  let dotIndex := rfind extsep p in
  if (sepIndex <? dotIndex)
     && has_non_dot
          (take (Z.to_nat (dotIndex - (sepIndex + 1)))
             (drop (Z.to_nat (sepIndex + 1)) p))
  then (take (Z.to_nat dotIndex) p, drop (Z.to_nat dotIndex) p)
  else (p, EmptyString).

(** The loop of [normpath] over the components, [new_comps] kept in
    reverse; [rooted] is [initial_slashes]. *)
Fixpoint norm_comps (rooted : bool) (comps : list string) (acc : list string)
  : list string :=
  match comps with
  | [] => rev acc
  | comp :: rest =>
      if String.eqb comp "" || String.eqb comp "." then norm_comps rooted rest acc
      else if negb (String.eqb comp "..")
              || (negb rooted && match acc with [] => true | _ => false end)
              || match acc with x :: _ => String.eqb x ".." | [] => false end
      then norm_comps rooted rest (comp :: acc)
      else norm_comps rooted rest (tl acc)
  end.

(** [os.path.normpath(path)] *)
Definition normpath (path : string) : string :=
  if String.eqb path "" then "."
  else
    let initial_slashes : nat :=
      if startswith path "/" then
        if startswith path "//" && negb (startswith path "///") then 2%nat
        else 1%nat
      else 0%nat in
    let comps := norm_comps (negb (Nat.eqb initial_slashes 0)) (split sep path) [] in
    let path' := String.concat "/" comps in
    let path'' := string_of_list_ascii (repeat sep initial_slashes) ++ path' in
    if String.eqb path'' "" then "." else path''.

(** [os.path.abspath(path)], with the working directory [cwd]. *)
Definition abspath (cwd path : string) : string :=
  normpath (if isabs path then path else join cwd [path]).

(** [len(commonprefix([l1, l2]))] on lists of components. *)
Fixpoint common_len (l1 l2 : list string) : nat :=
  match l1, l2 with
  | x :: l1', y :: l2' => if String.eqb x y then S (common_len l1' l2') else 0%nat
  | _, _ => 0%nat
  end.

(** [os.path.relpath(path, start)]; [None] is the [ValueError] raised for
    an empty [path]. *)
Definition relpath (cwd path start : string) : option string :=
  if String.eqb path "" then None
  else
    let nonempty := List.filter (fun x => negb (String.eqb x "")) in
    let start_list := nonempty (split sep (abspath cwd start)) in
    let path_list := nonempty (split sep (abspath cwd path)) in
    let i := common_len start_list path_list in
    let rel_list :=
      (repeat ".." (List.length start_list - i) ++ skipn i path_list)%list in
    match rel_list with
    | [] => Some "."
    | a :: p => Some (join a p)
    end.

End PosixPath.

(** ** [hashlib.sha256]

    The digest function of FIPS 180-4 on byte strings; words are 32-bit
    integers in [Z], additions reduced with [Z.land]. *)

Module Sha256.

Definition mask32 : Z := 0xffffffff.
Definition add32 (x y : Z) : Z := Z.land (x + y) mask32.
Definition rotr (n x : Z) : Z :=
  Z.lor (Z.shiftr x n) (Z.land (Z.shiftl x (32 - n)) mask32).
Definition not32 (x : Z) : Z := Z.lxor x mask32.

Definition Ch (x y z : Z) : Z := Z.lxor (Z.land x y) (Z.land (not32 x) z).
Definition Maj (x y z : Z) : Z :=
  Z.lxor (Z.lxor (Z.land x y) (Z.land x z)) (Z.land y z).
Definition Sigma0 (x : Z) : Z := Z.lxor (Z.lxor (rotr 2 x) (rotr 13 x)) (rotr 22 x).
Definition Sigma1 (x : Z) : Z := Z.lxor (Z.lxor (rotr 6 x) (rotr 11 x)) (rotr 25 x).
Definition sigma0 (x : Z) : Z := Z.lxor (Z.lxor (rotr 7 x) (rotr 18 x)) (Z.shiftr x 3).
Definition sigma1 (x : Z) : Z := Z.lxor (Z.lxor (rotr 17 x) (rotr 19 x)) (Z.shiftr x 10).

(** The constants are the first 32 bits of the fractional parts of the
    cube roots (for [K]) and of the square roots (for [H0]) of the first
    primes. [root k n bits 0] is the largest [r] below [2 ^ bits] with
    [r ^ k <= n]. *)
Fixpoint root (k n : Z) (bits : nat) (r : Z) : Z :=
  match bits with
  | O => r
  | S b =>
      let c := r + 2 ^ Z.of_nat b in
      root k n b (if c ^ k <=? n then c else r)
  end.

Definition frac_root (k p : Z) : Z :=
  Z.land (root k (p * 2 ^ (32 * k)) 36 0) mask32.

Definition is_prime (n : Z) : bool :=
  forallb (fun d => negb (n mod Z.of_nat d =? 0)) (seq 2 (Z.to_nat n - 2)).

Definition primes : list Z :=
  Eval vm_compute in List.filter is_prime (map Z.of_nat (seq 2 310)).

Definition K : list Z := Eval vm_compute in map (frac_root 3) primes.

(** The eight working variables, and the hash value between blocks. *)
Record regs : Type :=
  Regs { ra : Z; rb : Z; rc : Z; rd : Z; re : Z; rf : Z; rg : Z; rh : Z }.

Definition H0 : regs :=
  Eval vm_compute in
    match map (frac_root 2) primes with
    | a :: b :: c :: d :: e :: f :: g :: h :: _ => Regs a b c d e f g h
    | _ => Regs 0 0 0 0 0 0 0 0
    end.

(** Padding: a one bit, zeros up to 56 mod 64, the bit length on 8 bytes. *)
Definition be_bytes (n : nat) (x : Z) : list Z :=
  map (fun i => Z.land (Z.shiftr x (8 * Z.of_nat (n - 1 - i))) 0xff) (seq 0 n).

Definition pad (msg : list Z) : list Z :=
  let len := Z.of_nat (List.length msg) in
  let zeros := Z.to_nat ((55 - len) mod 64) in
  (msg ++ [0x80] ++ repeat 0 zeros ++ be_bytes 8 (8 * len))%list.

(** Big-endian words of a list of bytes. *)
Fixpoint words (n : nat) (bs : list Z) : list Z :=
  match n with
  | O => []
  | S n' =>
      match bs with
      | b0 :: b1 :: b2 :: b3 :: r =>
          Z.lor (Z.shiftl b0 24) (Z.lor (Z.shiftl b1 16) (Z.lor (Z.shiftl b2 8) b3))
          :: words n' r
      | _ => []
      end
  end.

(** The message schedule, latest word first: [n] more words. *)
Fixpoint schedule (n : nat) (w : list Z) : list Z :=
  match n with
  | O => w
  | S n' =>
      let nth i := List.nth i w 0 in
      schedule n'
        (add32 (add32 (sigma1 (nth 1%nat)) (nth 6%nat))
               (add32 (sigma0 (nth 14%nat)) (nth 15%nat)) :: w)
  end.

Definition round (s : regs) (kw : Z * Z) : regs :=
  let t1 := add32 (add32 (add32 (rh s) (Sigma1 (re s)))
                         (add32 (Ch (re s) (rf s) (rg s)) (fst kw))) (snd kw) in
  let t2 := add32 (Sigma0 (ra s)) (Maj (ra s) (rb s) (rc s)) in
  Regs (add32 t1 t2) (ra s) (rb s) (rc s) (add32 (rd s) t1) (re s) (rf s) (rg s).

Definition compress (h : regs) (block : list Z) : regs :=
  let w := rev (schedule 48 (rev (words 16 block))) in
  let s := fold_left round (combine K w) h in
  Regs (add32 (ra h) (ra s)) (add32 (rb h) (rb s)) (add32 (rc h) (rc s))
       (add32 (rd h) (rd s)) (add32 (re h) (re s)) (add32 (rf h) (rf s))
       (add32 (rg h) (rg s)) (add32 (rh h) (rh s)).

Fixpoint blocks (n : nat) (h : regs) (bs : list Z) : regs :=
  match n with
  | O => h
  | S n' => blocks n' (compress h (firstn 64 bs)) (skipn 64 bs)
  end.

Definition digest (msg : list Byte.byte) : regs :=
  let bs := pad (map (fun b => Z.of_N (Byte.to_N b)) msg) in
  blocks (List.length bs / 64) H0 bs.

(** Lower-case hexadecimal digits. *)
Definition hex_digit (n : Z) : ascii :=
  if n <? 10 then ascii_of_N (Z.to_N (48 + n)) else ascii_of_N (Z.to_N (87 + n)).

Definition hex_word (w : Z) : list ascii :=
  map (fun i => hex_digit (Z.land (Z.shiftr w (4 * Z.of_nat (7 - i))) 0xf)) (seq 0 8).

(** [hashlib.sha256(data).hexdigest()] *)
Definition hexdigest (msg : list Byte.byte) : string :=
  let h := digest msg in
  string_of_list_ascii
    (concat (map hex_word [ra h; rb h; rc h; rd h; re h; rf h; rg h; rh h])).

Definition is_hex (c : ascii) : bool :=
  existsb (Ascii.eqb c) (list_ascii_of_string "0123456789abcdef").

(** The shape of a digest: 64 hexadecimal characters. *)
Definition is_hexdigest (h : string) : bool :=
  Nat.eqb (String.length h) 64 && forallb is_hex (list_ascii_of_string h).

End Sha256.

(** ** Values, classes and collaborators *)

(** The exceptions the module and the calls it makes can raise. *)
Inductive exn : Type :=
| ValueError | AssertionError | TypeError | RuntimeError | NotImplementedError
| AttributeError | IndexError | KeyError | FileNotFoundError | SameFileError
| NameError.

Inductive result (A : Type) : Type :=
| Ok (a : A)
| Raise (e : exn).
Arguments Ok {A} a.
Arguments Raise {A} e.

(** [Union[int, str]]: a key, step or id. *)
Inductive PyVal : Type :=
| VInt (n : Z)
| VStr (s : string).

(** [str(v)] *)
Definition py_str (v : PyVal) : string :=
  match v with
  | VInt n => PyStr.of_int n
  | VStr s => s
  end.

(** A class: its name, which identifies it, the names of its proper
    ancestors, and what it overrides. [cls_media_subdir = None] is the
    inherited [get_media_subdir], which raises [NotImplementedError]. *)
Record PyClass : Type := {
  cls_name : string;
  cls_bases : list string;
  cls_media_subdir : option string;
  cls_log_type : option string
}.

(** [isinstance(obj, c)] for an object of class [c_obj]. *)
Definition isinstance_name (c_obj : PyClass) (name : string) : bool :=
  existsb (String.eqb name) (cls_name c_obj :: cls_bases c_obj).

Definition isinstance_cls (c_obj c : PyClass) : bool :=
  isinstance_name c_obj (cls_name c).

(** [class Media(WBValue)] itself. *)
Definition Media_class : PyClass :=
  {| cls_name := "Media"; cls_bases := ["WBValue"; "object"];
     cls_media_subdir := None; cls_log_type := None |}.

(** A run: [run_id] stands for the identity of the object ([is]),
    [run_dir] is its [dir]. *)
Record Run : Type := { run_id : nat; run_dir : string }.

Definition run_is (r1 r2 : Run) : bool := Nat.eqb (run_id r1) (run_id r2).

(** JSON values and the [dict] that [to_json] builds, in insertion order. *)
Inductive JsonVal : Type :=
| JNull
| JStr (s : string)
| JInt (n : Z).

Definition of_opt_str (o : option string) : JsonVal :=
  match o with Some s => JStr s | None => JNull end.

Definition dict : Type := list (string * JsonVal).

Fixpoint dict_set (k : string) (v : JsonVal) (d : dict) : dict :=
  match d with
  | [] => [(k, v)]
  | (k', v') :: r => if String.eqb k' k then (k, v) :: r else (k', v') :: dict_set k v r
  end.

Fixpoint dict_get (k : string) (d : dict) : option JsonVal :=
  match d with
  | [] => None
  | (k', v') :: r => if String.eqb k' k then Some v' else dict_get k r
  end.

(** What an artifact holds: files added under a name, with the bytes
    that were copied into the artifact, and references. *)
Inductive ArtifactEntry : Type :=
| AddedFile (name local_path : string) (is_tmp : bool) (data : option (list Byte.byte))
| AddedReference (name uri : string).

(** Modelled from the spec: the [Artifact] collaborator, of which the spec
    gives the interface only: [getAddedLocalPathName] (the dedup lookup by
    source path), [addFile] (which may return a final name other than the
    one asked for), [addReference], [getPath(name).refUrl()] and
    [defaultRoot]. [art_added_local_paths] is the dedup table;
    [art_entry_name] is the name normalisation of [addFile];
    [art_ref_url] gives the addressable URL of an entry, if there is one. *)
Record Artifact : Type := {
  art_entries : list ArtifactEntry;
  art_added_local_paths : gmap string string;
  art_default_root : string;
  art_entry_name : string -> string -> bool -> string;
  art_ref_url : string -> option string
}.

(** Modelled from the spec: [Artifact.get_added_local_path_name], "the
    dedup lookup": the name under which this exact source path was added. *)
Definition get_added_local_path_name (a : Artifact) (path : string) : option string :=
  art_added_local_paths a !! path.

(** Modelled from the spec: [Artifact.add_file], which adds the file "by
    copy" under a name of its choosing, enters the source path in the dedup
    table and returns the entry (here its [path], the final name). [data]
    is what the file holds when it is added. *)
Definition add_file (a : Artifact) (path name : string) (is_tmp : bool)
    (data : option (list Byte.byte)) : Artifact * string :=
  let final := art_entry_name a path name is_tmp in
  ({| art_entries := art_entries a ++ [AddedFile final path is_tmp data];
      art_added_local_paths := <[path := final]> (art_added_local_paths a);
      art_default_root := art_default_root a;
      art_entry_name := art_entry_name a;
      art_ref_url := art_ref_url a |}, final).

(** Modelled from the spec: [Artifact.add_reference], which adds a
    reference to [uri] under [name]; it is given no source path. *)
Definition add_reference (a : Artifact) (uri name : string) : Artifact :=
  {| art_entries := art_entries a ++ [AddedReference name uri];
     art_added_local_paths := art_added_local_paths a;
     art_default_root := art_default_root a;
     art_entry_name := art_entry_name a;
     art_ref_url := art_ref_url a |}.

(** The argument of [to_json]: a run, or an artifact of the store. *)
Inductive RunOrArtifact : Type :=
| IsRun (r : Run)
| IsArtifact (a : nat).

(** ** The [Media] object

    The attributes that [Media] declares, the class of the object, and
    what [WBValue], which is not part of the module, contributes: the
    source artifact and the two URLs of the artifact entry. *)

Record Media : Type := {
  cls : PyClass;
  _path : option string;
  _run : option Run;
  _caption : option string;
  _is_tmp : option bool;
  _extension : option (option string);
  _sha256 : option string;
  _size : option Z;
  (* assigned by [WBValue.__init__]: the artifact of the store this value
     came from, and the name it has there *)
  _artifact_source : option (nat * string);
  (* what [_get_artifact_entry_ref_url] and
     [_get_artifact_entry_latest_ref_url] of [WBValue] return *)
  _artifact_entry_ref_url : option string;
  _artifact_entry_latest_ref_url : option string
}.

Definition set_path (v : option string) (m : Media) : Media :=
  {| cls := cls m; _path := v; _run := _run m; _caption := _caption m;
     _is_tmp := _is_tmp m; _extension := _extension m; _sha256 := _sha256 m;
     _size := _size m; _artifact_source := _artifact_source m;
     _artifact_entry_ref_url := _artifact_entry_ref_url m;
     _artifact_entry_latest_ref_url := _artifact_entry_latest_ref_url m |}.

Definition set_run (v : option Run) (m : Media) : Media :=
  {| cls := cls m; _path := _path m; _run := v; _caption := _caption m;
     _is_tmp := _is_tmp m; _extension := _extension m; _sha256 := _sha256 m;
     _size := _size m; _artifact_source := _artifact_source m;
     _artifact_entry_ref_url := _artifact_entry_ref_url m;
     _artifact_entry_latest_ref_url := _artifact_entry_latest_ref_url m |}.

Definition set_is_tmp (v : option bool) (m : Media) : Media :=
  {| cls := cls m; _path := _path m; _run := _run m; _caption := _caption m;
     _is_tmp := v; _extension := _extension m; _sha256 := _sha256 m;
     _size := _size m; _artifact_source := _artifact_source m;
     _artifact_entry_ref_url := _artifact_entry_ref_url m;
     _artifact_entry_latest_ref_url := _artifact_entry_latest_ref_url m |}.

Definition set_extension (v : option (option string)) (m : Media) : Media :=
  {| cls := cls m; _path := _path m; _run := _run m; _caption := _caption m;
     _is_tmp := _is_tmp m; _extension := v; _sha256 := _sha256 m;
     _size := _size m; _artifact_source := _artifact_source m;
     _artifact_entry_ref_url := _artifact_entry_ref_url m;
     _artifact_entry_latest_ref_url := _artifact_entry_latest_ref_url m |}.

Definition set_sha256 (v : option string) (m : Media) : Media :=
  {| cls := cls m; _path := _path m; _run := _run m; _caption := _caption m;
     _is_tmp := _is_tmp m; _extension := _extension m; _sha256 := v;
     _size := _size m; _artifact_source := _artifact_source m;
     _artifact_entry_ref_url := _artifact_entry_ref_url m;
     _artifact_entry_latest_ref_url := _artifact_entry_latest_ref_url m |}.

Definition set_size (v : option Z) (m : Media) : Media :=
  {| cls := cls m; _path := _path m; _run := _run m; _caption := _caption m;
     _is_tmp := _is_tmp m; _extension := _extension m; _sha256 := _sha256 m;
     _size := v; _artifact_source := _artifact_source m;
     _artifact_entry_ref_url := _artifact_entry_ref_url m;
     _artifact_entry_latest_ref_url := _artifact_entry_latest_ref_url m |}.

(** [Media.__init__(caption)] on a fresh object of class [c]. *)
Definition Media_init (c : PyClass) (caption : option string) : Media :=
  {| cls := c; _path := None; _run := None; _caption := caption;
     _is_tmp := None; _extension := None; _sha256 := None; _size := None;
     _artifact_source := None; _artifact_entry_ref_url := None;
     _artifact_entry_latest_ref_url := None |}.

(** ** The world and the method monad *)

Record World : Type := {
  files : gmap string (list Byte.byte);   (* regular files, by canonical name *)
  dirs : gset string;                     (* directories created *)
  tracked : list string;                  (* arguments of [_datatypes_callback] *)
  realpath : string -> string;            (* the canonical name of a path *)
  cwd : string;                           (* [os.getcwd()] *)
  artifacts : gmap nat Artifact           (* the artifacts, by identity *)
}.

Definition set_files (f : gmap string (list Byte.byte)) (w : World) : World :=
  {| files := f; dirs := dirs w; tracked := tracked w;
     realpath := realpath w; cwd := cwd w;
     artifacts := artifacts w |}.

Definition set_dirs (d : gset string) (w : World) : World :=
  {| files := files w; dirs := d; tracked := tracked w;
     realpath := realpath w; cwd := cwd w;
     artifacts := artifacts w |}.

Definition set_tracked (t : list string) (w : World) : World :=
  {| files := files w; dirs := dirs w; tracked := t;
     realpath := realpath w; cwd := cwd w;
     artifacts := artifacts w |}.

Definition set_artifacts (a : gmap nat Artifact) (w : World) : World :=
  {| files := files w; dirs := dirs w; tracked := tracked w;
     realpath := realpath w; cwd := cwd w;
     artifacts := a |}.

(** The state a method runs in: the receiver and the world. *)
Record St : Type := { self : Media; world : World }.

Definition M (A : Type) : Type := St -> St * result A.

#[export] Instance M_ret : MRet M := fun A a s => (s, Ok a).

#[export] Instance M_bind : MBind M := fun A B f c s =>
  match c s with
  | (s', Ok a) => f a s'
  | (s', Raise e) => (s', Raise e)
  end.

Definition raise {A : Type} (e : exn) : M A := fun s => (s, Raise e).
Definition get_self : M Media := fun s => (s, Ok (self s)).
Definition get_world : M World := fun s => (s, Ok (world s)).
Definition modify_self (f : Media -> Media) : M unit :=
  fun s => ({| self := f (self s); world := world s |}, Ok tt).
Definition modify_world (f : World -> World) : M unit :=
  fun s => ({| self := self s; world := f (world s) |}, Ok tt).

(** Reading an attribute that may be absent. *)
Definition attr {A : Type} (f : Media -> option A) : M A :=
  m ← get_self; match f m with Some v => mret v | None => raise AttributeError end.

(** *** The file system, as the module uses it *)

(** The bytes of the file that [path] names, if there is one. *)
Definition file_at (w : World) (path : string) : option (list Byte.byte) :=
  files w !! realpath w path.

(** [os.path.samefile(p, q)] when [p] names a file: [q] names that file
    too. *)
Definition samefile (w : World) (p q : string) : bool :=
  String.eqb (realpath w p) (realpath w q).

(** [open(path, "rb").read()] *)
Definition open_read (path : string) : M (list Byte.byte) :=
  w ← get_world;
  match file_at w path with
  | Some data => mret data
  | None => raise FileNotFoundError
  end.

(** [os.path.getsize(path)] *)
Definition getsize (path : string) : M Z :=
  w ← get_world;
  match file_at w path with
  | Some data => mret (Z.of_nat (List.length data))
  | None => raise FileNotFoundError
  end.

(** Modelled from the spec: [wandb.util.mkdir_exists_ok], which "ensures all
    intermediate directories exist (idempotent create)". *)
Definition mkdir_exists_ok (d : string) : M unit :=
  modify_world (fun w => set_dirs ({[ realpath w d ]} ∪ dirs w) w).

(** [shutil.move(src, dst)] between regular files: [os.rename], which
    takes the file away from [src] under every spelling of it and leaves
    it where it is when [dst] names the same file. *)
Definition shutil_move (src dst : string) : M unit :=
  w ← get_world;
  match file_at w src with
  | Some data =>
      modify_world
        (set_files (<[realpath w dst := data]> (delete (realpath w src) (files w))))
  | None => raise FileNotFoundError
  end.

(** [shutil.copy(src, dst)] between regular files: [copyfile] raises
    [SameFileError] when the two paths name the same file, whatever their
    spelling, and a missing source is found out when it is opened. *)
Definition shutil_copy (src dst : string) : M unit :=
  w ← get_world;
  match file_at w src with
  | Some data =>
      if samefile w src dst then raise SameFileError
      else modify_world (set_files (<[realpath w dst := data]> (files w)))
  | None => raise FileNotFoundError
  end.

(** Modelled from the spec: [wandb._globals._datatypes_callback], the
    notification of the run's tracking mechanism. *)
Definition _datatypes_callback (fname : string) : M unit :=
  modify_world (fun w => set_tracked (tracked w ++ [fname]) w).

(** *** The artifacts of the store *)

Definition get_artifact (a : nat) : M Artifact :=
  w ← get_world;
  match artifacts w !! a with
  | Some art => mret art
  | None => raise KeyError
  end.

Definition put_artifact (a : nat) (art : Artifact) : M unit :=
  modify_world (fun w => set_artifacts (<[a := art]> (artifacts w)) w).

(** *** The names of the module *)

(** [typing.TYPE_CHECKING]: [False] when the program runs. *)
Definition TYPE_CHECKING : bool := false.

(** The global names bound once the module is imported: the imports, the
    imports under [if TYPE_CHECKING:], and the definitions of the module. *)
Definition module_globals : list string :=
  ([ "hashlib"; "Optional"; "Sequence"; "Type"; "TYPE_CHECKING"; "Union";
     "os"; "platform"; "shutil"; "tempfile"; "WBValue"; "_datatypes_callback";
     "check_windows_valid_filename"; "mkdir_exists_ok"; "to_forward_slash_path" ]
   ++ (if TYPE_CHECKING then ["Run"; "Artifact"; "PublicArtifact"] else [])
   ++ [ "SYS_PLATFORM"; "_wb_filename"; "Media" ])%list.

(** The evaluation of a global name: [NameError] when it is not bound. *)
Definition load_global (name : string) : M unit :=
  if existsb (String.eqb name) module_globals then mret tt else raise NameError.

(** ** The methods of [Media] *)

(** [_wb_filename(key, step, id, extension)] *)
Definition _wb_filename (key step id : PyVal) (extension : string) : string :=
  py_str key ++ "_" ++ py_str step ++ "_" ++ py_str id ++ extension.

(** [Media.__eq__(self, other)]; of [other] only the class and the
    [_sha256] attribute are looked at. *)
Definition __eq__ (self other : Media) : bool :=
  isinstance_cls (cls other) (cls self)
  && match _sha256 self, _sha256 other with
     | Some h1, Some h2 => String.eqb h1 h2
     | _, _ => false
     end.

(** [issubclass(c, d)] for two different classes: [c] derives from [d]. *)
Definition is_proper_subclass (c d : PyClass) : bool :=
  negb (String.eqb (cls_name c) (cls_name d)) && isinstance_cls c d.

(** [a == b] for two objects whose classes inherit [Media.__eq__]. When the
    type of [b] is a proper subclass of the type of [a], Python tries the
    method of [b] first, with the operands swapped, and the method of [a]
    first otherwise; [Media.__eq__] never returns [NotImplemented], so the
    method tried first gives the result. *)
Definition py_eq (a b : Media) : bool :=
  if is_proper_subclass (cls b) (cls a) then __eq__ b a else __eq__ a b.

(** [Media.captions(media_items)]: [False], or the list of the captions. *)
Definition captions (media_items : list Media) : result (bool + list (option string)) :=
  match media_items with
  | [] => Raise IndexError
  | m0 :: _ =>
      match _caption m0 with
      | Some _ => Ok (inr (map _caption media_items))
      | None => Ok (inl false)
      end
  end.

Section Methods.

(** [SYS_PLATFORM = platform.system()] *)
Variable SYS_PLATFORM : string.
(** Functions of [wandb.util] and of [wandb.data_types.Audio] that the
    module calls. *)
Variable check_windows_valid_filename : PyVal -> bool.
Variable to_forward_slash_path : string -> string.
Variable path_is_reference : string -> bool.
(** [__debug__]: false under [python -O], which removes the [assert]
    statements. *)
Variable __debug__ : bool.

(** [assert c] *)
Definition py_assert (c : bool) : M unit :=
  if __debug__ && negb c then raise AssertionError else mret tt.

Definition _set_file (path : string) (is_tmp : bool) (extension : option string)
  : M unit :=
  modify_self (set_path (Some path));;
  modify_self (set_is_tmp (Some is_tmp));;
  modify_self (set_extension (Some extension));;
  (match extension with
   | Some e => if negb (PyStr.endswith path e) then raise ValueError else mret tt
   | None => mret tt
   end);;
  p ← attr _path;
  data ← open_read p;
  modify_self (set_sha256 (Some (Sha256.hexdigest data)));;
  sz ← getsize p;
  modify_self (set_size (Some sz)).

Definition get_media_subdir : M string :=
  m ← get_self;
  match cls_media_subdir (cls m) with
  | Some d => mret d
  | None => raise NotImplementedError
  end.

Definition is_bound : M bool :=
  m ← get_self; mret (match _run m with Some _ => true | None => false end).

Definition file_is_set : M bool :=
  m ← get_self;
  match _path m with
  | None => mret false
  | Some _ => _ ← attr _sha256; mret true
  end.

Definition bind_to_run (run : option Run) (key step : PyVal) (id_ : option PyVal)
  : M unit :=
  attached ← file_is_set;
  if negb attached then raise AssertionError else
  if String.eqb SYS_PLATFORM "Windows" && negb (check_windows_valid_filename key)
  then raise ValueError else
  match run with
  | None => raise TypeError
  | Some r =>
      modify_self (set_run (Some r));;
      ext ← attr _extension;
      path ← attr _path;
      let extension :=
        match ext with
        | None => snd (PosixPath.splitext (PosixPath.basename path))
        | Some e => e
        end in
      id ← match id_ with
           | None => sha ← attr _sha256; mret (VStr (PyStr.take 20 sha))
           | Some i => mret i
           end;
      let file_path := _wb_filename key step id extension in
      subdir ← get_media_subdir;
      let media_path := PosixPath.join subdir [file_path] in
      let new_path := PosixPath.join (run_dir r) [media_path] in
      mkdir_exists_ok (PosixPath.dirname new_path);;
      tmp ← attr _is_tmp;
      if (tmp : bool) then
        shutil_move path new_path;;
        modify_self (set_path (Some new_path));;
        modify_self (set_is_tmp (Some false));;
        _datatypes_callback media_path
      else
        shutil_copy path new_path;;
        modify_self (set_path (Some new_path));;
        _datatypes_callback media_path
  end.

(** The branch of [to_json] for a run. *)
Definition to_json_run (run : Run) : M dict :=
  bound ← is_bound;
  if negb bound then raise RuntimeError else
  m ← get_self;
  match _run m with
  | None => raise RuntimeError
  | Some r =>
      py_assert (run_is r run);;
      py_assert (match _path m with Some _ => true | None => false end);;
      (* [os.path.relpath(None, ...)] raises [TypeError] *)
      path ← match _path m with Some p => mret p | None => raise TypeError end;
      w ← get_world;
      match PosixPath.relpath (cwd w) path (run_dir r) with
      | None => raise ValueError
      | Some rel =>
          sha ← attr _sha256;
          size ← attr _size;
          let json_obj : dict :=
            [ ("_type", JStr "file");
              ("path", JStr (to_forward_slash_path rel));
              ("sha256", JStr sha);
              ("size", JInt size) ] in
          let json_obj :=
            match _artifact_entry_ref_url m with
            | Some url => dict_set "artifact_path" (JStr url) json_obj
            | None => json_obj
            end in
          let json_obj :=
            match _artifact_entry_latest_ref_url m with
            | Some url => dict_set "_latest_artifact_path" (JStr url) json_obj
            | None => json_obj
            end in
          mret json_obj
      end
  end.

(** The name under which the file goes into the artifact when its path is
    not in the dedup table, before the artifact is asked. *)
Definition candidate_name (subdir : string) (tmp : bool) (sha path : string) : string :=
  if tmp then PosixPath.join subdir [PosixPath.basename path]
  else PosixPath.join subdir [PyStr.take 20 sha; PosixPath.basename path].

(** The branch of [to_json] for the artifact [a] of the store. *)
Definition to_json_artifact (a : nat) : M dict :=
  attached ← file_is_set;
  json_obj ←
    (if (attached : bool) then
       path ← attr _path;
       sha ← attr _sha256;
       artifact ← get_artifact a;
       name ←
         match get_added_local_path_name artifact path with
         | Some name => mret name
         | None =>
             tmp ← attr _is_tmp;
             subdir ← get_media_subdir;
             let name := candidate_name subdir tmp sha path in
             m ← get_self;
             match _artifact_source m with
             | Some (src, _) =>
                 source ← get_artifact src;
                 let default_root := art_default_root source in
                 let name :=
                   if PyStr.startswith path default_root
                   then PyStr.lstrip PyStr.sep
                          (PyStr.drop (String.length default_root) path)
                   else name in
                 match art_ref_url source name with
                 | None => raise KeyError
                 | Some url =>
                     put_artifact a (add_reference artifact url name);;
                     mret name
                 end
             | None =>
                 if isinstance_name (cls m) "Audio" && path_is_reference path
                 then
                   put_artifact a (add_reference artifact path name);;
                   mret name
                 else
                   w ← get_world;
                   let (artifact', entry_path) :=
                     add_file artifact path name tmp (file_at w path) in
                   put_artifact a artifact';;
                   mret entry_path
             end
         end;
       mret [("path", JStr name); ("sha256", JStr sha)]
     else mret []);
  m ← get_self;
  mret (dict_set "_type" (of_opt_str (cls_log_type (cls m))) json_obj).

(** [Media.to_json(run)]. The two tests [isinstance(run, Run)] and
    [isinstance(run, Artifact)] evaluate the global names [Run] and
    [Artifact] before they look at [run]; the import of [Audio] inside the
    function is taken to succeed. *)
Definition to_json (run : RunOrArtifact) : M dict :=
  load_global "Run";;
  match run with
  | IsRun r => to_json_run r
  | IsArtifact a => load_global "Artifact";; to_json_artifact a
  end.

End Methods.

(** ** Sample data

    Two concrete kinds, two runs and a staged file, used by the examples
    and to instantiate the statements below. *)

Module Samples.

Definition Image_class : PyClass :=
  {| cls_name := "Image"; cls_bases := ["Media"; "WBValue"; "object"];
     cls_media_subdir := Some "media/images"; cls_log_type := Some "image-file" |}.

Definition Audio_class : PyClass :=
  {| cls_name := "Audio"; cls_bases := ["Media"; "WBValue"; "object"];
     cls_media_subdir := Some "media/audio"; cls_log_type := Some "audio-file" |}.

Definition ten_bytes : list Byte.byte := list_byte_of_string "0123456789".
Definition ten_bytes_sha : string :=
  "84d89877f0d4041efb6bf91a16f0248f2fd573e6af05c19f96bedb9f882f7882".

Definition staged : string := "/tmp/wandb-media/abc.png".

Definition run1 : Run := {| run_id := 1; run_dir := "/runs/r1/files" |}.
Definition run2 : Run := {| run_id := 2; run_dir := "/runs/r2/files" |}.

(** A POSIX platform: the file-name check of the Windows branch is never
    consulted, and [to_forward_slash_path], which replaces backslashes on
    Windows, returns its argument; no path is a reference. *)
Definition platform : string := "Linux".
Definition any_filename (_ : PyVal) : bool := true.
Definition no_reference (_ : string) : bool := false.
Definition keep_slashes (p : string) : string := p.

(** The names of a file system without links all of whose directories
    exist, the working directory being [/home/u]: the canonical name of a
    path is its absolute normalised form. *)
Definition resolve (path : string) : string := PosixPath.abspath "/home/u" path.

Definition empty_artifact : Artifact :=
  {| art_entries := []; art_added_local_paths := ∅;
     art_default_root := "/artifacts/new";
     art_entry_name := fun _ name _ => name;
     art_ref_url := fun _ => None |}.

Definition world0 : World :=
  {| files := {[ staged := ten_bytes ]}; dirs := ∅; tracked := [];
     realpath := resolve; cwd := "/home/u";
     artifacts := {[ 7%nat := empty_artifact ]} |}.

(** An object on which [_set_file] has run. *)
Definition attached (c : PyClass) (caption : option string) (path : string)
    (is_tmp : bool) (sha : string) : Media :=
  {| cls := c; _path := Some path; _run := None; _caption := caption;
     _is_tmp := Some is_tmp; _extension := Some None; _sha256 := Some sha;
     _size := Some 10; _artifact_source := None;
     _artifact_entry_ref_url := None;
     _artifact_entry_latest_ref_url := None |}.

(** A fresh image, the staged file attached to it, and the image bound to
    [run1]. *)
Definition fresh : St :=
  {| self := Media_init Image_class None; world := world0 |}.

Definition bind : option Run -> PyVal -> PyVal -> option PyVal -> M unit :=
  bind_to_run platform any_filename.

Definition after_attach : St := fst (_set_file staged true None fresh).

Definition after_bind : St :=
  fst (bind (Some run1) (VStr "img") (VInt 0) None after_attach).

(** [to_json] as the interpreter runs it, with the [assert] statements. *)
Definition to_json_sample : RunOrArtifact -> M dict :=
  to_json keep_slashes no_reference true.

(** Two images on files of the caller that have the same basename and
    different contents. *)
Definition other_bytes : list Byte.byte := list_byte_of_string "abcdefghij".

Definition world2 : World :=
  {| files := <[ "/data/dir1/img.png" := ten_bytes ]>
                {[ "/data/dir2/img.png" := other_bytes ]};
     dirs := ∅; tracked := []; realpath := resolve; cwd := "/home/u";
     artifacts := {[ 7%nat := empty_artifact ]} |}.

Definition external1 : St :=
  fst (_set_file "/data/dir1/img.png" false None
         {| self := Media_init Image_class None; world := world2 |}).

Definition external2 : St :=
  fst (_set_file "/data/dir2/img.png" false None
         {| self := Media_init Image_class None; world := world2 |}).

(** An image on a file that is not temporary and is already where
    [bind_to_run] will put it, attached through another spelling of that
    path; and a temporary file attached through a path with a [.] in it. *)
Definition in_place : string := "/runs/r1/files/media/images/img_0_x.png".

Definition spelled_in_place : St :=
  {| self := attached Image_class None "/runs/r1//files/media/images/img_0_x.png"
               false ten_bytes_sha;
     world :=
       {| files := {[ in_place := ten_bytes ]}; dirs := ∅; tracked := [];
          realpath := resolve; cwd := "/home/u"; artifacts := ∅ |} |}.

Definition spelled_staged : St :=
  {| self := attached Image_class None "/tmp/wandb-media/./abc.png" true ten_bytes_sha;
     world := world0 |}.

End Samples.

(** ** The statements of the specification

    Definitions that follow the words of the specification, to which the
    methods are compared below. *)

(** The precondition of [attach] on its [extension] argument: "if
    [extension] given, [path] ends with it". *)
Definition extension_ok (path : string) (extension : option string) : Prop :=
  match extension with
  | Some e => PyStr.endswith path e = true
  | None => True
  end.

(** "Resolved extension = explicit [extension] field if set, else the
    suffix of the current [path]." *)
Definition spec_resolved_extension (extension : option string) (path : string)
  : string :=
  match extension with
  | Some e => e
  | None => snd (PosixPath.splitext (PosixPath.basename path))
  end.

(** "Resolved id = given [id], else first 20 hex characters of
    [contentHash]." *)
Definition spec_resolved_id (id_ : option PyVal) (sha : string) : PyVal :=
  match id_ with
  | Some i => i
  | None => VStr (PyStr.take 20 sha)
  end.

(** "[{key}_{step}_{id}{extension}]" *)
Definition spec_filename (key step id : PyVal) (extension : string) : string :=
  py_str key ++ "_" ++ py_str step ++ "_" ++ py_str id ++ extension.

(** The destination relative path: [mediaSubdir] joined with the file
    name. *)
Definition spec_destination (subdir : string) (key step id : PyVal)
    (extension : string) : string :=
  PosixPath.join subdir [spec_filename key step id extension].

(** An object on which [_set_file] has run: the four attributes it assigns
    and the digest are there. *)
Definition attached_with (m : Media) (path sha : string) (extension : option string)
    (is_tmp : bool) : Prop :=
  _path m = Some path /\ _sha256 m = Some sha
  /\ _extension m = Some extension /\ _is_tmp m = Some is_tmp.


(** An optional passthrough field of the run descriptor. *)
Definition spec_optional_field (key : string) (url : option string) : dict :=
  match url with
  | Some u => [(key, JStr u)]
  | None => []
  end.

(** ** [from_json]

    A class method: it has no receiver, and runs on the world alone. *)

Definition W (A : Type) : Type := World -> World * result A.

(** [Media(caption)]: the constructor of the class [Media] itself, which
    [cls(...)] calls when [cls] is [Media]. *)
Definition Media_new (caption : string) : W Media :=
  fun w => (w, Ok (Media_init Media_class (Some caption))).

Section Reconstruction.

(** The constructor of [cls], called with one positional argument. *)
Variable construct : string -> W Media.
(** Modelled from the spec: [source_artifact.get_path(name).download()] of
    the [PublicArtifact] collaborator, which resolves the name of an entry
    to a local file, downloading it if need be, or fails. *)
Variable download : nat -> JsonVal -> W string.

(** [Media.from_json(json_obj, source_artifact)] *)
Definition from_json (json_obj : dict) (source_artifact : nat) : W Media :=
  fun w =>
    match dict_get "path" json_obj with
    | None => (w, Raise KeyError)
    | Some name =>
        match download source_artifact name w with
        | (w', Ok local) => construct local w'
        | (w', Raise e) => (w', Raise e)
        end
    end.

End Reconstruction.

(** ** More sample data *)

Module Cases.

(** A platform on which the file-name check applies, with a check that
    rejects the keys containing a colon. *)
Definition windows : string := "Windows".
Definition no_colon (key : PyVal) : bool := negb (PyStr.contains ":" (py_str key)).

(** An object of the class [Media] itself, attached to the staged file. *)
Definition plain : St :=
  {| self := Samples.attached Media_class None Samples.staged true Samples.ten_bytes_sha;
     world := Samples.world0 |}.

(** An attached image whose file is gone. *)
Definition vanished : St :=
  {| self := Samples.attached Samples.Image_class None "/tmp/wandb-media/gone.png" true
               Samples.ten_bytes_sha;
     world := Samples.world0 |}.

(** An attached image with an explicit extension. *)
Definition explicit : St :=
  {| self := set_extension (Some (Some ".png"))
               (Samples.attached Samples.Image_class None Samples.staged true
                  Samples.ten_bytes_sha);
     world := Samples.world0 |}.

(** An image attached to the staged file. *)
Definition staged_image : St :=
  {| self := Samples.attached Samples.Image_class None Samples.staged true
               Samples.ten_bytes_sha;
     world := Samples.world0 |}.

(** The same, with a file of somebody else beside the staged one. *)
Definition beside : St :=
  {| self := self staged_image;
     world := set_files (<["/data/notes.txt" := list_byte_of_string "notes"]>
                           (files Samples.world0)) Samples.world0 |}.

(** A temporary file that is already at the place to which [bind_to_run]
    will move it, attached through another spelling of that path. *)
Definition staged_at_destination : St :=
  {| self := set_is_tmp (Some true) (self Samples.spelled_in_place);
     world := world Samples.spelled_in_place |}.

Definition bind : option Run -> PyVal -> PyVal -> option PyVal -> M unit :=
  bind_to_run Samples.platform Samples.any_filename.

End Cases.

(** * Properties *)

(** ** The library functions on sample inputs *)

Example basename_ex : PosixPath.basename "/tmp/wandb-media/a.b.png" = "a.b.png".
Proof. reflexivity. Qed.

Example splitext_ex :
  PosixPath.splitext ".bashrc" = (".bashrc", "")
  /\ PosixPath.splitext "img.tar.gz" = ("img.tar", ".gz")
  /\ PosixPath.splitext "..x" = ("..x", "")
  /\ PosixPath.splitext "a/.b.c" = ("a/.b", ".c").
Proof. repeat split; reflexivity. Qed.

Example join_ex :
  PosixPath.join "media/images" ["k_0_id.png"] = "media/images/k_0_id.png"
  /\ PosixPath.join "media/images" ["/k_0_id.png"] = "/k_0_id.png"
  /\ PosixPath.join "" ["a"; "b"] = "a/b"
  /\ PosixPath.join "a/" ["b"] = "a/b".
Proof. repeat split; reflexivity. Qed.

Example relpath_ex :
  PosixPath.relpath "/home/u" "/run/files/media/images/k_0_id.png" "/run/files"
    = Some "media/images/k_0_id.png"
  /\ PosixPath.relpath "/home/u" "run/../x//y/./z.png" "run" = Some "../x/y/z.png"
  /\ PosixPath.relpath "/home/u" "/a" "/a" = Some ".".
Proof. repeat split; reflexivity. Qed.

Example dirname_ex :
  PosixPath.dirname "/run/media/k.png" = "/run/media"
  /\ PosixPath.dirname "/k.png" = "/"
  /\ PosixPath.dirname "k.png" = ""
  /\ PosixPath.dirname "a//k.png" = "a".
Proof. repeat split; reflexivity. Qed.

Example of_int_ex : PyStr.of_int 0 = "0" /\ PyStr.of_int (-12) = "-12" /\ PyStr.of_int 305 = "305".
Proof. repeat split; reflexivity. Qed.

Example sha256_empty :
  Sha256.hexdigest [] = "e3b0c44298fc1c149afbf4c8996fb92427ae41e4649b934ca495991b7852b855".
Proof. vm_compute. reflexivity. Qed.

Example sha256_abc :
  Sha256.hexdigest (list_byte_of_string "abc")
  = "ba7816bf8f01cfea414140de5dae2223b00361a396177a9cb410ff61f20015ad".
Proof. vm_compute. reflexivity. Qed.

Example sha256_two_blocks :
  Sha256.hexdigest (repeat Byte.x61 100)
  = "2816597888e4a0d3a36b82b83316ab32680eb8f00f8cd3b904d681246d285a0e".
Proof. vm_compute. reflexivity. Qed.

(** ** Strings *)

Section StringFacts.
Import PyStr.

Lemma append_cons a (r t : string) : String a r ++ t = String a (r ++ t).
Proof. reflexivity. Qed.

Lemma append_nil (t : string) : "" ++ t = t.
Proof. reflexivity. Qed.

Lemma append_assoc (s t u : string) : (s ++ t) ++ u = s ++ t ++ u.
Proof.
  induction s as [|a r IH]; [done|]. rewrite !append_cons. by rewrite IH.
Qed.

End StringFacts.

(** ** The digest is 64 hexadecimal characters *)

Section DigestFacts.
Import Sha256.

Lemma hex_digit_is_hex n : 0 <= n < 16 -> is_hex (hex_digit n) = true.
Proof.
  intros H. rewrite <- (Z2Nat.id n) by lia.
  assert (Z.to_nat n < 16)%nat as Hk by lia.
  revert Hk. generalize (Z.to_nat n). intros k Hk.
  do 16 (destruct k as [|k]; [reflexivity|]). lia.
Qed.

Lemma nibble_range x : 0 <= Z.land x 0xf < 16.
Proof. change 0xf with (Z.ones 4). rewrite Z.land_ones by lia. apply Z.mod_pos_bound. lia. Qed.

Lemma hex_word_is_hex w : forallb is_hex (hex_word w) = true.
Proof.
  unfold hex_word. apply forallb_forall. intros c [i [<- _]]%in_map_iff.
  apply hex_digit_is_hex, nibble_range.
Qed.

Lemma hex_word_length w : List.length (hex_word w) = 8%nat.
Proof. unfold hex_word. by rewrite length_map, length_seq. Qed.

Lemma length_string_of_list_ascii l :
  String.length (string_of_list_ascii l) = List.length l.
Proof. induction l as [|a l IH]; simpl; [done|]. by rewrite IH. Qed.

Lemma hexdigest_is_hexdigest data : is_hexdigest (hexdigest data) = true.
Proof.
  unfold is_hexdigest, hexdigest. generalize (digest data). intros h.
  rewrite length_string_of_list_ascii, list_ascii_of_string_of_list_ascii.
  apply andb_true_iff. split.
  - cbn [map concat]. rewrite !length_app, !hex_word_length. done.
  - cbn [map concat]. rewrite !forallb_app, !hex_word_is_hex. done.
Qed.

End DigestFacts.

(** ** Running a method *)

Ltac unfold_m :=
  unfold _set_file, bind_to_run, to_json_run, to_json_artifact, _wb_filename,
    file_is_set, is_bound, get_media_subdir, attr, py_assert, open_read,
    getsize, mkdir_exists_ok, shutil_move, shutil_copy, _datatypes_callback,
    file_at, samefile,
    get_artifact, put_artifact, get_self, get_world, modify_self,
    modify_world, raise, mbind, M_bind, mret, M_ret in *.

(** [run_m tac] evaluates a method step by step, calling [tac] to rewrite
    with the hypotheses on the state whenever the evaluation is stuck. *)
Ltac run_m tac :=
  unfold_m;
  repeat (cbn -[PyStr.take PyStr.drop PyStr.lstrip PyStr.startswith PosixPath.join
                PosixPath.dirname PosixPath.splitext PosixPath.basename
                PosixPath.relpath String.append String.eqb
                candidate_name isinstance_name get_added_local_path_name
                add_file add_reference insert delete union singleton lookup];
          tac).

(** ** [captions] *)

(** C10: on a non-empty sequence [captions] returns the list of all the
    captions when the first item has one and [False] otherwise; on the
    empty sequence the indexing of the first element raises [IndexError]. *)
Theorem captions_spec :
  (forall m0 rest,
      captions (m0 :: rest)
      = Ok (match _caption m0 with
            | Some _ => inr (map _caption (m0 :: rest))
            | None => inl false
            end))
  /\ captions [] = Raise IndexError.
Proof.
  split; [|reflexivity].
  intros m0 rest. unfold captions. by destruct (_caption m0).
Qed.

(** ** [_set_file] *)

(** C9, as the code has it: when [extension] is not a suffix of [path],
    [_set_file] raises [ValueError]; the digest, the size and the world are
    as before, but [_path], [_is_tmp] and [_extension] have already been
    assigned the arguments. *)
Theorem set_file_bad_extension path is_tmp ext s :
  PyStr.endswith path ext = false ->
  _set_file path is_tmp (Some ext) s
  = ({| self := set_extension (Some (Some ext))
                  (set_is_tmp (Some is_tmp) (set_path (Some path) (self s)));
        world := world s |}, Raise ValueError)
  /\ _sha256 (self (fst (_set_file path is_tmp (Some ext) s))) = _sha256 (self s)
  /\ _size (self (fst (_set_file path is_tmp (Some ext) s))) = _size (self s)
  /\ world (fst (_set_file path is_tmp (Some ext) s)) = world s.
Proof.
  intros H. unfold_m. simpl. rewrite H. simpl. done.
Qed.

Lemma set_file_bad_extension_witness :
  PyStr.endswith Samples.staged ".jpg" = false
  /\ snd (_set_file Samples.staged true (Some ".jpg")
            {| self := Media_init Samples.Image_class None; world := Samples.world0 |})
     = Raise ValueError.
Proof.
  split; [reflexivity|].
  rewrite (proj1 (set_file_bad_extension Samples.staged true ".jpg"
             {| self := Media_init Samples.Image_class None; world := Samples.world0 |}
             eq_refl)).
  reflexivity.
Defined.

(** C9, as the spec has it, fails: the failing call leaves [_path],
    [_is_tmp] and [_extension] assigned on an object that had none. *)
Lemma set_file_bad_extension_counterexample :
  let s := {| self := Media_init Samples.Image_class None; world := Samples.world0 |} in
  let s' := fst (_set_file Samples.staged true (Some ".jpg") s) in
  PyStr.endswith Samples.staged ".jpg" = false
  /\ snd (_set_file Samples.staged true (Some ".jpg") s) = Raise ValueError
  /\ _path (self s) = None /\ _path (self s') = Some Samples.staged
  /\ _is_tmp (self s) = None /\ _is_tmp (self s') = Some true
  /\ _extension (self s) = None /\ _extension (self s') = Some (Some ".jpg")
  /\ s' <> s.
Proof. repeat split; try reflexivity. intros H; discriminate H. Qed.

(** The state [_set_file] leaves on a readable file. *)
Lemma set_file_run path is_tmp extension s data :
  file_at (world s) path = Some data ->
  extension_ok path extension ->
  _set_file path is_tmp extension s
  = ({| self := set_size (Some (Z.of_nat (List.length data)))
                  (set_sha256 (Some (Sha256.hexdigest data))
                     (set_extension (Some extension)
                        (set_is_tmp (Some is_tmp) (set_path (Some path) (self s)))));
        world := world s |}, Ok tt).
Proof.
  intros Hf He. destruct s as [m w]; cbn [self world] in *.
  destruct extension as [e|]; cbn [extension_ok] in He;
    run_m ltac:(rewrite ?He, ?Hf); reflexivity.
Qed.

(** X24: after a successful [_set_file] the object is attached: the path,
    the temporary flag and the extension are those of the call, and the
    digest is 64 hexadecimal characters. *)
Lemma set_file_attaches path is_tmp extension s data :
  file_at (world s) path = Some data ->
  extension_ok path extension ->
  attached_with (self (fst (_set_file path is_tmp extension s)))
    path (Sha256.hexdigest data) extension is_tmp
  /\ Sha256.is_hexdigest (Sha256.hexdigest data) = true.
Proof.
  intros Hf He. rewrite (set_file_run _ _ _ _ _ Hf He).
  split; [repeat split|apply hexdigest_is_hexdigest].
Qed.

(** C5: on a readable file, [_set_file] sets [_sha256] to the SHA-256 hex
    digest of the bytes of the file and [_size] to their number, moves no
    file (the world is as before), and any other call on a file with the
    same bytes gives the same digest. *)
Theorem set_file_digest path is_tmp extension s data :
  file_at (world s) path = Some data ->
  extension_ok path extension ->
  exists s',
    _set_file path is_tmp extension s = (s', Ok tt)
    /\ _sha256 (self s') = Some (Sha256.hexdigest data)
    /\ _size (self s') = Some (Z.of_nat (List.length data))
    /\ world s' = world s
    /\ forall path2 is_tmp2 extension2 t,
         file_at (world t) path2 = Some data ->
         extension_ok path2 extension2 ->
         _sha256 (self (fst (_set_file path2 is_tmp2 extension2 t)))
         = _sha256 (self s').
Proof.
  intros Hf He. eexists. split; [apply set_file_run; done|].
  repeat split; try reflexivity.
  intros path2 tmp2 e2 t Hf2 He2. by rewrite (set_file_run _ tmp2 _ _ _ Hf2 He2).
Qed.

Lemma set_file_digest_witness :
  exists s',
    _set_file Samples.staged true (Some ".png")
      {| self := Media_init Samples.Image_class None; world := Samples.world0 |}
    = (s', Ok tt)
    /\ _sha256 (self s') = Some Samples.ten_bytes_sha
    /\ _size (self s') = Some 10.
Proof.
  destruct (set_file_digest Samples.staged true (Some ".png")
              {| self := Media_init Samples.Image_class None; world := Samples.world0 |}
              Samples.ten_bytes eq_refl eq_refl)
    as (s' & Hrun & Hsha & Hsize & _).
  exists s'. split; [exact Hrun|]. split; [|exact Hsize].
  rewrite Hsha. vm_compute. reflexivity.
Defined.

(** ** Equality *)


(** Called as a method, [__eq__] accepts an object of a subclass: a
    [Media] object answers [True] for an [Audio] object with its digest.
    The operator does not call it that way. *)
Example eq_method_subclass :
  let a := Samples.attached Media_class None "/data/a.wav" false Samples.ten_bytes_sha in
  let b := Samples.attached Samples.Audio_class None "/data/a.wav" false Samples.ten_bytes_sha in
  __eq__ a b = true /\ __eq__ b a = false /\ py_eq a b = false /\ py_eq b a = false.
Proof. repeat split; reflexivity. Qed.



(** ** [bind_to_run] *)

Section BindToRun.

Variable SYS_PLATFORM : string.
Variable check_windows_valid_filename : PyVal -> bool.

Local Abbreviation bind := (bind_to_run SYS_PLATFORM check_windows_valid_filename) (only parsing).

(** The file-name check of the Windows branch lets [key] through. *)
Local Abbreviation key_accepted key :=
  (String.eqb SYS_PLATFORM "Windows" && negb (check_windows_valid_filename key) = false)
  (only parsing).

(** The state [bind_to_run] leaves when the staged file is moved. *)
Lemma bind_to_run_move s r key step id_ path sha ext subdir data :
  attached_with (self s) path sha ext true ->
  cls_media_subdir (cls (self s)) = Some subdir ->
  key_accepted key ->
  file_at (world s) path = Some data ->
  let rel := spec_destination subdir key step (spec_resolved_id id_ sha)
               (spec_resolved_extension ext path) in
  let new_path := PosixPath.join (run_dir r) [rel] in
  bind (Some r) key step id_ s
  = ({| self := set_is_tmp (Some false)
                  (set_path (Some new_path) (set_run (Some r) (self s)));
        world :=
          {| files := <[realpath (world s) new_path := data]>
                        (delete (realpath (world s) path) (files (world s)));
             dirs := {[ realpath (world s) (PosixPath.dirname new_path) ]}
                     ∪ dirs (world s);
             tracked := (tracked (world s) ++ [rel])%list;
             realpath := realpath (world s);
             cwd := cwd (world s);
             artifacts := artifacts (world s) |} |}, Ok tt).
Proof.
  intros (Hp & Hh & He & Ht) Hd Hk Hf.
  unfold spec_destination, spec_filename, spec_resolved_id,
    spec_resolved_extension, _wb_filename.
  destruct s as [m w]; cbn [self world] in *.
  destruct id_; run_m ltac:(rewrite ?Hp, ?Hh, ?Hk, ?He, ?Hd, ?Ht, ?Hf);
    reflexivity.
Qed.

(** What [bind_to_run] does when the file is to be copied: it fails with
    [SameFileError] when the path of the object and the destination name
    the same file, the run being recorded all the same, and copies
    otherwise. *)
Lemma bind_to_run_copy s r key step id_ path sha ext subdir data :
  attached_with (self s) path sha ext false ->
  cls_media_subdir (cls (self s)) = Some subdir ->
  key_accepted key ->
  file_at (world s) path = Some data ->
  let rel := spec_destination subdir key step (spec_resolved_id id_ sha)
               (spec_resolved_extension ext path) in
  let new_path := PosixPath.join (run_dir r) [rel] in
  bind (Some r) key step id_ s
  = if samefile (world s) path new_path then
      ({| self := set_run (Some r) (self s);
          world :=
            {| files := files (world s);
               dirs := {[ realpath (world s) (PosixPath.dirname new_path) ]}
                       ∪ dirs (world s);
               tracked := tracked (world s);
               realpath := realpath (world s);
             cwd := cwd (world s);
               artifacts := artifacts (world s) |} |}, Raise SameFileError)
    else
      ({| self := set_path (Some new_path) (set_run (Some r) (self s));
          world :=
            {| files := <[realpath (world s) new_path := data]> (files (world s));
               dirs := {[ realpath (world s) (PosixPath.dirname new_path) ]}
                       ∪ dirs (world s);
               tracked := (tracked (world s) ++ [rel])%list;
               realpath := realpath (world s);
             cwd := cwd (world s);
               artifacts := artifacts (world s) |} |}, Ok tt).
Proof.
  intros (Hp & Hh & He & Ht) Hd Hk Hf rel new_path. subst rel new_path.
  unfold spec_destination, spec_filename, spec_resolved_id,
    spec_resolved_extension in *.
  destruct s as [m w]; cbn [self world] in *.
  unfold samefile.
  destruct id_; cbn [py_str];
    match goal with
    | |- context [String.eqb ?a ?b] => destruct (String.eqb a b) eqn:Hne
    end;
    run_m ltac:(rewrite ?Hp, ?Hh, ?Hk, ?He, ?Hd, ?Ht, ?Hf, ?Hne);
    reflexivity.
Qed.

(** Once past its checks, [bind_to_run] records the run it is given,
    whatever run was recorded before and whatever happens next. *)
Lemma bind_to_run_records_run s r key step id_ path sha :
  _path (self s) = Some path -> _sha256 (self s) = Some sha ->
  key_accepted key ->
  _run (self (fst (bind (Some r) key step id_ s))) = Some r.
Proof.
  intros Hp Hh Hk.
  destruct s as [m w]; cbn [self world] in *.
  destruct id_, (_extension m) eqn:He, (cls_media_subdir (cls m)) eqn:Hd,
    (_is_tmp m) as [[|]|] eqn:Ht, (file_at w path) eqn:Hf;
    run_m ltac:(rewrite ?Hp, ?Hh, ?Hk, ?He, ?Hd, ?Ht, ?Hf); try reflexivity;
    match goal with
    | |- context [String.eqb ?a ?b] =>
        destruct (String.eqb a b); run_m idtac; reflexivity
    end.
Qed.

(** C2: for an attached object, [bind_to_run] derives the destination
    relative path as the media sub-directory joined with
    [{key}_{step}_{id}{extension}], the id being the one given or else the
    first 20 characters of the digest, the extension the [_extension]
    attribute or else the suffix of the current path; any other binding
    with the same sub-directory, key, step, resolved id and extension
    derives the same path. The call returns when the file is there and,
    if it is to be copied, is not the file at the destination already. *)
Theorem bind_to_run_destination s r key step id_ path sha ext tmp subdir data :
  attached_with (self s) path sha ext tmp ->
  cls_media_subdir (cls (self s)) = Some subdir ->
  key_accepted key ->
  file_at (world s) path = Some data ->
  let id := match id_ with Some i => i | None => VStr (PyStr.take 20 sha) end in
  let extension :=
    match ext with
    | Some e => e
    | None => snd (PosixPath.splitext (PosixPath.basename path))
    end in
  let rel :=
    PosixPath.join subdir
      [py_str key ++ "_" ++ py_str step ++ "_" ++ py_str id ++ extension] in
  (tmp = false -> samefile (world s) path (PosixPath.join (run_dir r) [rel]) = false) ->
  exists s',
    bind (Some r) key step id_ s = (s', Ok tt)
    /\ tracked (world s') = (tracked (world s) ++ [rel])%list
    /\ _path (self s') = Some (PosixPath.join (run_dir r) [rel])
    /\ forall t t' r2 id2 path2 sha2 ext2 tmp2 data2,
         attached_with (self t) path2 sha2 ext2 tmp2 ->
         cls_media_subdir (cls (self t)) = Some subdir ->
         file_at (world t) path2 = Some data2 ->
         spec_resolved_id id2 sha2 = id ->
         spec_resolved_extension ext2 path2 = extension ->
         bind (Some r2) key step id2 t = (t', Ok tt) ->
         tracked (world t') = (tracked (world t) ++ [rel])%list.
Proof.
  intros Ha Hd Hk Hf id extension rel Hne.
  assert (rel = spec_destination subdir key step (spec_resolved_id id_ sha)
                  (spec_resolved_extension ext path)) as Hrel by reflexivity.
  assert (exists s',
    bind (Some r) key step id_ s = (s', Ok tt)
    /\ tracked (world s') = (tracked (world s) ++ [rel])%list
    /\ _path (self s') = Some (PosixPath.join (run_dir r) [rel])) as (s' & H1 & H2 & H3).
  { destruct tmp.
    - eexists. split; [apply (bind_to_run_move s r key step id_ _ _ _ _ _ Ha Hd Hk Hf)|].
      split; reflexivity.
    - pose proof (bind_to_run_copy s r key step id_ _ _ _ _ _ Ha Hd Hk Hf) as Hc.
      cbv zeta in Hc. rewrite <- Hrel in Hc.
      rewrite (Hne eq_refl) in Hc.
      eexists. split; [exact Hc|]. split; reflexivity. }
  exists s'. repeat split; try done.
  intros t t' r2 id2 path2 sha2 ext2 tmp2 data2 Ha2 Hd2 Hf2 Hid Hext Hrun.
  destruct tmp2.
  - rewrite (bind_to_run_move t r2 key step id2 _ _ _ _ _ Ha2 Hd2 Hk Hf2) in Hrun.
    injection Hrun as <-. cbn [world tracked]. by rewrite Hid, Hext.
  - rewrite (bind_to_run_copy t r2 key step id2 _ _ _ _ _ Ha2 Hd2 Hk Hf2) in Hrun.
    cbv zeta in Hrun.
    match type of Hrun with
    | context [samefile ?w ?a ?b] => destruct (samefile w a b)
    end; [discriminate Hrun|].
    injection Hrun as <-. cbn [world tracked]. by rewrite Hid, Hext.
Qed.

(** C4: [bind_to_run] on an attached object whose file is there and is not
    the file at the destination already. A temporary file is moved: it is
    at the destination and no longer at the staging path, and [_is_tmp] is
    false. A file that is not temporary is copied: it is at both places.
    In both cases [_path] is the destination, the run has been notified of
    the relative path, and no other file has changed. *)
Theorem bind_to_run_relocates s r key step id_ path sha ext tmp subdir data :
  attached_with (self s) path sha ext tmp ->
  cls_media_subdir (cls (self s)) = Some subdir ->
  key_accepted key ->
  file_at (world s) path = Some data ->
  let rel := spec_destination subdir key step (spec_resolved_id id_ sha)
               (spec_resolved_extension ext path) in
  let new_path := PosixPath.join (run_dir r) [rel] in
  samefile (world s) path new_path = false ->
  exists s',
    bind (Some r) key step id_ s = (s', Ok tt)
    /\ file_at (world s') new_path = Some data
    /\ file_at (world s') path = (if tmp then None else Some data)
    /\ _is_tmp (self s') = Some false
    /\ _path (self s') = Some new_path
    /\ tracked (world s') = (tracked (world s) ++ [rel])%list
    /\ forall q, samefile (world s) q path = false ->
                 samefile (world s) q new_path = false ->
                 file_at (world s') q = file_at (world s) q.
Proof.
  intros Ha Hd Hk Hf rel new_path Hne.
  assert (realpath (world s) path <> realpath (world s) new_path) as Hne'.
  { by apply String.eqb_neq. }
  destruct tmp.
  - eexists. split; [apply (bind_to_run_move s r key step id_ _ _ _ _ _ Ha Hd Hk Hf)|].
    fold rel new_path. unfold file_at in *. cbn [world self files tracked realpath].
    split; [apply lookup_insert_eq|]. split.
    { rewrite lookup_insert_ne by done. apply lookup_delete_eq. }
    repeat split; try reflexivity.
    intros q Hq1%String.eqb_neq Hq2%String.eqb_neq.
    rewrite lookup_insert_ne by done. by rewrite lookup_delete_ne.
  - pose proof (bind_to_run_copy s r key step id_ _ _ _ _ _ Ha Hd Hk Hf) as Hc.
    cbv zeta in Hc. fold rel new_path in Hc. rewrite Hne in Hc.
    eexists. split; [exact Hc|].
    unfold file_at in *. cbn [world self files tracked realpath].
    split; [apply lookup_insert_eq|]. split.
    { by rewrite lookup_insert_ne. }
    destruct Ha as (_ & _ & _ & Ht).
    repeat split; try done.
    intros q Hq1%String.eqb_neq Hq2%String.eqb_neq. by rewrite lookup_insert_ne.
Qed.

(** C1, as the code has it: [bind_to_run] never looks at the run recorded
    before. On an attached object already bound to a run [r1], a call
    naming a run [r2] whose key is accepted records [r2], whatever
    follows; and it returns, the object being bound to [r2] and at the
    destination under the directory of [r2], whenever the class has a media
    sub-directory, the file is there and, if it is to be copied, is not
    the file at the destination already. *)
Theorem bind_to_run_rebinds s r1 r2 key step id_ path sha :
  _run (self s) = Some r1 ->
  _path (self s) = Some path -> _sha256 (self s) = Some sha ->
  key_accepted key ->
  _run (self (fst (bind (Some r2) key step id_ s))) = Some r2
  /\ forall ext tmp subdir data,
       _extension (self s) = Some ext -> _is_tmp (self s) = Some tmp ->
       cls_media_subdir (cls (self s)) = Some subdir ->
       file_at (world s) path = Some data ->
       let new_path :=
         PosixPath.join (run_dir r2)
           [spec_destination subdir key step (spec_resolved_id id_ sha)
              (spec_resolved_extension ext path)] in
       (tmp = false -> samefile (world s) path new_path = false) ->
       exists s',
         bind (Some r2) key step id_ s = (s', Ok tt)
         /\ _run (self s') = Some r2
         /\ _path (self s') = Some new_path
         /\ file_at (world s') new_path = Some data.
Proof.
  intros _ Hp Hh Hk. split; [by eapply bind_to_run_records_run|].
  intros ext tmp subdir data He Ht Hd Hf new_path Hne.
  assert (attached_with (self s) path sha ext tmp) as Ha by done.
  destruct tmp.
  - eexists. split; [apply (bind_to_run_move s r2 key step id_ _ _ _ _ _ Ha Hd Hk Hf)|].
    fold new_path. unfold file_at. cbn [world self files realpath].
    repeat split; try reflexivity. apply lookup_insert_eq.
  - pose proof (bind_to_run_copy s r2 key step id_ _ _ _ _ _ Ha Hd Hk Hf) as Hc.
    cbv zeta in Hc. fold new_path in Hc. rewrite (Hne eq_refl) in Hc.
    eexists. split; [exact Hc|].
    unfold file_at. cbn [world self files realpath].
    repeat split; try reflexivity. apply lookup_insert_eq.
Qed.

End BindToRun.

(** The sample object after [_set_file], and after [bind_to_run]. *)
Example after_attach_state :
  Samples.after_attach
  = {| self := Samples.attached Samples.Image_class None Samples.staged true
                 Samples.ten_bytes_sha;
       world := Samples.world0 |}.
Proof. vm_compute. reflexivity. Qed.

Example after_bind_state :
  let dest := "/runs/r1/files/media/images/img_0_84d89877f0d4041efb6b.png" in
  self Samples.after_bind
  = set_run (Some Samples.run1)
      (Samples.attached Samples.Image_class None dest false Samples.ten_bytes_sha)
  /\ file_at (world Samples.after_bind) dest = Some Samples.ten_bytes
  /\ file_at (world Samples.after_bind) Samples.staged = None
  /\ tracked (world Samples.after_bind)
     = ["media/images/img_0_84d89877f0d4041efb6b.png"].
Proof. vm_compute. repeat split; reflexivity. Qed.

(** Two spellings of one path name one file. A file that is not temporary
    and is attached through another spelling of the destination is not
    copied onto itself: [bind_to_run] raises [SameFileError]. A temporary
    file attached through a path with a [.] in it is gone from the staging
    directory, under its plain name too, once it is moved. *)
Example bind_to_run_spellings :
  snd (Samples.bind (Some Samples.run1) (VStr "img") (VInt 0) (Some (VStr "x"))
         Samples.spelled_in_place)
  = Raise SameFileError
  /\ (let call := Samples.bind (Some Samples.run1) (VStr "img") (VInt 0) None
                    Samples.spelled_staged in
      snd call = Ok tt
      /\ file_at (world Samples.spelled_staged) "/tmp/wandb-media/abc.png"
         = Some Samples.ten_bytes
      /\ file_at (world (fst call)) "/tmp/wandb-media/abc.png" = None
      /\ file_at (world (fst call)) "/tmp/wandb-media/./abc.png" = None
      /\ file_at (world (fst call))
           "/runs/r1/files/media/images/img_0_84d89877f0d4041efb6b.png"
         = Some Samples.ten_bytes).
Proof. vm_compute. repeat split; reflexivity. Qed.

Lemma bind_to_run_destination_witness :
  exists s',
    Samples.bind (Some Samples.run1) (VStr "img") (VInt 0) None Samples.after_attach
    = (s', Ok tt)
    /\ tracked (world s') = ["media/images/img_0_84d89877f0d4041efb6b.png"]
    /\ _path (self s')
       = Some "/runs/r1/files/media/images/img_0_84d89877f0d4041efb6b.png".
Proof.
  destruct (bind_to_run_destination Samples.platform Samples.any_filename
              Samples.after_attach Samples.run1 (VStr "img") (VInt 0) None
              Samples.staged Samples.ten_bytes_sha None true "media/images"
              Samples.ten_bytes)
    as (s' & Hrun & Htracked & Hpath & _).
  - rewrite after_attach_state. repeat split; reflexivity.
  - rewrite after_attach_state. reflexivity.
  - reflexivity.
  - rewrite after_attach_state. reflexivity.
  - intros H; discriminate H.
  - exists s'. split; [exact Hrun|]. split.
    + rewrite Htracked, after_attach_state. reflexivity.
    + rewrite Hpath. reflexivity.
Defined.

Lemma bind_to_run_relocates_witness :
  exists s',
    Samples.bind (Some Samples.run1) (VStr "img") (VInt 0) None Samples.after_attach
    = (s', Ok tt)
    /\ file_at (world s')
         "/runs/r1/files/media/images/img_0_84d89877f0d4041efb6b.png"
       = Some Samples.ten_bytes
    /\ file_at (world s') Samples.staged = None
    /\ _is_tmp (self s') = Some false.
Proof.
  destruct (bind_to_run_relocates Samples.platform Samples.any_filename
              Samples.after_attach Samples.run1 (VStr "img") (VInt 0) None
              Samples.staged Samples.ten_bytes_sha None true "media/images"
              Samples.ten_bytes)
    as (s' & Hrun & Hnew & Hold & Htmp & _).
  - rewrite after_attach_state. repeat split; reflexivity.
  - rewrite after_attach_state. reflexivity.
  - reflexivity.
  - rewrite after_attach_state. reflexivity.
  - rewrite after_attach_state. reflexivity.
  - exists s'. split; [exact Hrun|]. split; [exact Hnew|]. split; [exact Hold|exact Htmp].
Defined.

Lemma bind_to_run_rebinds_witness :
  _run (self Samples.after_bind) = Some Samples.run1
  /\ run_is Samples.run1 Samples.run2 = false
  /\ exists s',
       Samples.bind (Some Samples.run2) (VStr "img") (VInt 0) None Samples.after_bind
       = (s', Ok tt)
       /\ _run (self s') = Some Samples.run2.
Proof.
  split; [vm_compute; reflexivity|]. split; [reflexivity|].
  destruct (bind_to_run_rebinds Samples.platform Samples.any_filename
              Samples.after_bind Samples.run1 Samples.run2 (VStr "img") (VInt 0) None
              "/runs/r1/files/media/images/img_0_84d89877f0d4041efb6b.png"
              Samples.ten_bytes_sha)
    as (_ & Hok).
  - vm_compute. reflexivity.
  - vm_compute. reflexivity.
  - vm_compute. reflexivity.
  - reflexivity.
  - destruct (Hok None false "media/images" Samples.ten_bytes)
      as (s' & Hrun & Hbound & _).
    + vm_compute. reflexivity.
    + vm_compute. reflexivity.
    + vm_compute. reflexivity.
    + vm_compute. reflexivity.
    + intros _. vm_compute. reflexivity.
    + exists s'. split; [exact Hrun|exact Hbound].
Defined.

(** C1, as the spec has it, fails: an image bound to [run1] is bound to
    the different run [run2] by a second call, which returns normally. *)
Lemma bind_to_run_rebinds_counterexample :
  let call :=
    Samples.bind (Some Samples.run2) (VStr "img") (VInt 0) None Samples.after_bind in
  _run (self Samples.after_bind) = Some Samples.run1
  /\ run_is Samples.run1 Samples.run2 = false
  /\ snd call = Ok tt
  /\ _run (self (fst call)) = Some Samples.run2.
Proof. vm_compute. repeat split; reflexivity. Qed.


(** ** [to_json] *)

(** The names the module looks up when it runs: those it defines or
    imports are bound, [Run] and [Artifact] are not. *)
Example load_global_ex :
  forall s,
    load_global "SYS_PLATFORM" s = (s, Ok tt)
    /\ load_global "_datatypes_callback" s = (s, Ok tt)
    /\ load_global "Run" s = (s, Raise NameError)
    /\ load_global "Artifact" s = (s, Raise NameError).
Proof. intros s. repeat split; reflexivity. Qed.

Section ToJson.

Variable to_forward_slash_path : string -> string.
Variable path_is_reference : string -> bool.
Variable __debug__ : bool.

Local Abbreviation to_json := (to_json to_forward_slash_path path_is_reference __debug__)
  (only parsing).
Local Abbreviation to_json_run := (to_json_run to_forward_slash_path __debug__)
  (only parsing).

(** [to_json] stops at its first test: the name [Run] is not bound. *)
Lemma to_json_raises run s : to_json run s = (s, Raise NameError).
Proof. reflexivity. Qed.

(** What the branch for a run builds for the run an attached object is
    bound to; [to_json] does not get there. *)
Lemma to_json_run_body s r path sha size rel :
  _run (self s) = Some r ->
  _path (self s) = Some path ->
  PosixPath.relpath (cwd (world s)) path (run_dir r) = Some rel ->
  _sha256 (self s) = Some sha ->
  _size (self s) = Some size ->
  to_json_run r s
  = (s, Ok ([ ("_type", JStr "file");
              ("path", JStr (to_forward_slash_path rel));
              ("sha256", JStr sha);
              ("size", JInt size) ]
            ++ spec_optional_field "artifact_path" (_artifact_entry_ref_url (self s))
            ++ spec_optional_field "_latest_artifact_path"
                 (_artifact_entry_latest_ref_url (self s)))%list).
Proof.
  intros Hr Hp Hrel Hh Hs.
  assert (run_is r r = true) as Hrr by apply Nat.eqb_refl.
  destruct s as [m w]; cbn [self world] in *.
  destruct __debug__, (_artifact_entry_ref_url m) eqn:Hu,
    (_artifact_entry_latest_ref_url m) eqn:Hl;
    run_m ltac:(rewrite ?Hr, ?Hp, ?Hh, ?Hs, ?Hrr, ?Hrel, ?Hu, ?Hl); reflexivity.
Qed.

(** X14: [to_json] for a run only reads: whatever it returns or raises,
    the object and the world are as before; and so it is of the branch
    for a run taken by itself, with or without the [assert] statements. *)
Theorem to_json_run_reads_only s r :
  fst (to_json (IsRun r) s) = s
  /\ fst (to_json_run r s) = s.
Proof.
  split; [reflexivity|].
  destruct s as [m w]; cbn [self world] in *.
  destruct __debug__;
  (destruct (_run m) as [r0|] eqn:Hr; [destruct (run_is r0 r) eqn:Hne|];
    [destruct (_path m) as [p|] eqn:Hp;
     [destruct (PosixPath.relpath (cwd w) p (run_dir r0)) eqn:Hrel;
      [destruct (_sha256 m) eqn:Hh;
       [destruct (_size m) eqn:Hs;
        [destruct (_artifact_entry_ref_url m) eqn:Hu,
           (_artifact_entry_latest_ref_url m) eqn:Hl|]|]|]|]
    |destruct (_path m) as [p|] eqn:Hp;
     [destruct (PosixPath.relpath (cwd w) p (run_dir r0)) eqn:Hrel;
      [destruct (_sha256 m) eqn:Hh;
       [destruct (_size m) eqn:Hs;
        [destruct (_artifact_entry_ref_url m) eqn:Hu,
           (_artifact_entry_latest_ref_url m) eqn:Hl|]|]|]|]
    |]);
    run_m ltac:(rewrite ?Hr, ?Hne, ?Hp, ?Hrel, ?Hh, ?Hs, ?Hu, ?Hl); reflexivity.
Qed.

End ToJson.

(** C3: [to_json] for a run returns no descriptor. Whatever the object,
    bound or not, and whatever the run, the test [isinstance(run, Run)]
    raises [NameError], the name [Run] being imported for type checking
    only; nothing changes. So it is for the sample image, attached to a
    file of 10 bytes and bound to [run1], serialised for [run1]: the
    specification expects the descriptor of the file, which the branch
    that is not reached would build. *)
Theorem to_json_run_name_error :
  (forall fwd ref dbg r s, to_json fwd ref dbg (IsRun r) s = (s, Raise NameError))
  /\ _run (self Samples.after_bind) = Some Samples.run1
  /\ Samples.to_json_sample (IsRun Samples.run1) Samples.after_bind
     = (Samples.after_bind, Raise NameError)
  /\ to_json_run Samples.keep_slashes true Samples.run1 Samples.after_bind
     = (Samples.after_bind,
        Ok [ ("_type", JStr "file");
             ("path", JStr "media/images/img_0_84d89877f0d4041efb6b.png");
             ("sha256", JStr Samples.ten_bytes_sha);
             ("size", JInt 10) ]).
Proof.
  split; [intros; apply to_json_raises|].
  split; [vm_compute; reflexivity|].
  split; [apply to_json_raises|].
  vm_compute. reflexivity.
Qed.

(** C7: [to_json] for an artifact derives no name. Whatever the object and
    the artifact, the test [isinstance(run, Run)], which comes first,
    raises [NameError]; nothing is handed to the artifact. So it is for
    two images on files of the caller that are not temporary and have the
    same basename and different contents: neither gets a name. *)
Theorem to_json_artifact_name_error :
  (forall fwd ref dbg a s, to_json fwd ref dbg (IsArtifact a) s = (s, Raise NameError))
  /\ attached_with (self Samples.external1) "/data/dir1/img.png"
       (Sha256.hexdigest Samples.ten_bytes) None false
  /\ attached_with (self Samples.external2) "/data/dir2/img.png"
       (Sha256.hexdigest Samples.other_bytes) None false
  /\ Samples.ten_bytes <> Samples.other_bytes
  /\ Samples.to_json_sample (IsArtifact 7) Samples.external1
     = (Samples.external1, Raise NameError)
  /\ Samples.to_json_sample (IsArtifact 7) Samples.external2
     = (Samples.external2, Raise NameError).
Proof.
  split; [intros; apply to_json_raises|].
  split; [vm_compute; repeat split; reflexivity|].
  split; [vm_compute; repeat split; reflexivity|].
  split; [intros H; discriminate H|].
  split; apply to_json_raises.
Qed.

(** C8: two calls of [to_json] for the same artifact return no name, the
    first no more than the second: each raises [NameError] at the test
    [isinstance(run, Run)] and changes nothing. So it is for the sample
    image on a file of the caller and an empty artifact: after the two
    calls the artifact is as it was, with nothing in its dedup table. *)
Theorem to_json_twice_name_error :
  (forall fwd ref dbg a s,
      let call1 := to_json fwd ref dbg (IsArtifact a) s in
      let call2 := to_json fwd ref dbg (IsArtifact a) (fst call1) in
      snd call1 = Raise NameError /\ snd call2 = Raise NameError /\ fst call2 = s)
  /\ (let call1 := Samples.to_json_sample (IsArtifact 7) Samples.external1 in
      let call2 := Samples.to_json_sample (IsArtifact 7) (fst call1) in
      snd call1 = Raise NameError
      /\ snd call2 = Raise NameError
      /\ artifacts (world (fst call2)) !! 7%nat = Some Samples.empty_artifact
      /\ get_added_local_path_name Samples.empty_artifact "/data/dir1/img.png" = None).
Proof.
  split.
  - intros fwd ref dbg a s. cbv zeta. rewrite !to_json_raises. by cbn [fst snd].
  - cbv zeta. unfold Samples.to_json_sample. rewrite !to_json_raises. cbn [fst snd].
    repeat split; reflexivity.
Qed.

(** * Further properties of the methods *)

(** ** [bind_to_run]: what goes wrong, and what is left behind *)

Section BindToRunErrors.

Variable SYS_PLATFORM : string.
Variable check_windows_valid_filename : PyVal -> bool.

Local Abbreviation bind := (bind_to_run SYS_PLATFORM check_windows_valid_filename)
  (only parsing).

Local Abbreviation key_accepted key :=
  (String.eqb SYS_PLATFORM "Windows" && negb (check_windows_valid_filename key) = false)
  (only parsing).

(** X1: on an object to which no file was ever attached, [bind_to_run]
    raises [AssertionError] and changes nothing: no run is recorded. *)
Theorem bind_to_run_unattached s run key step id_ :
  _path (self s) = None ->
  bind run key step id_ s = (s, Raise AssertionError).
Proof.
  intros Hp. destruct s as [m w]; cbn [self world] in *.
  run_m ltac:(rewrite ?Hp). reflexivity.
Qed.

(** X2: on an attached object whose key is accepted, [bind_to_run] with no
    run raises [TypeError] and changes nothing. *)
Theorem bind_to_run_no_run s key step id_ path sha :
  _path (self s) = Some path -> _sha256 (self s) = Some sha ->
  key_accepted key ->
  bind None key step id_ s = (s, Raise TypeError).
Proof.
  intros Hp Hh Hk. destruct s as [m w]; cbn [self world] in *.
  run_m ltac:(rewrite ?Hp, ?Hh, ?Hk). reflexivity.
Qed.

(** X3: when the class of the object does not override
    [get_media_subdir], [bind_to_run] raises [NotImplementedError], but
    only after it has recorded the run: the object is bound from then on,
    though no file has moved and the run has not been notified. *)
Theorem bind_to_run_abstract_kind s r key step id_ path sha ext :
  _path (self s) = Some path -> _sha256 (self s) = Some sha ->
  _extension (self s) = Some ext ->
  cls_media_subdir (cls (self s)) = None ->
  key_accepted key ->
  bind (Some r) key step id_ s
  = ({| self := set_run (Some r) (self s); world := world s |},
     Raise NotImplementedError)
  /\ is_bound {| self := set_run (Some r) (self s); world := world s |}
     = ({| self := set_run (Some r) (self s); world := world s |}, Ok true).
Proof.
  intros Hp Hh He Hd Hk. split; [|reflexivity].
  destruct s as [m w]; cbn [self world] in *.
  destruct id_; run_m ltac:(rewrite ?Hp, ?Hh, ?Hk, ?He, ?Hd); reflexivity.
Qed.

(** X4: when the file of an attached object is no longer there,
    [bind_to_run] raises [FileNotFoundError]; the run is recorded and the
    directory of the destination created, but [_path] and [_is_tmp] are as
    before, no file has changed and the run has not been notified. *)
Theorem bind_to_run_missing_file s r key step id_ path sha ext tmp subdir :
  attached_with (self s) path sha ext tmp ->
  cls_media_subdir (cls (self s)) = Some subdir ->
  key_accepted key ->
  file_at (world s) path = None ->
  let new_path :=
    PosixPath.join (run_dir r)
      [spec_destination subdir key step (spec_resolved_id id_ sha)
         (spec_resolved_extension ext path)] in
  let created := realpath (world s) (PosixPath.dirname new_path) in
  bind (Some r) key step id_ s
  = ({| self := set_run (Some r) (self s);
        world := set_dirs ({[ created ]} ∪ dirs (world s)) (world s) |},
     Raise FileNotFoundError)
  /\ _path (set_run (Some r) (self s)) = Some path
  /\ _is_tmp (set_run (Some r) (self s)) = Some tmp
  /\ files (set_dirs ({[ created ]} ∪ dirs (world s)) (world s)) = files (world s)
  /\ tracked (set_dirs ({[ created ]} ∪ dirs (world s)) (world s)) = tracked (world s).
Proof.
  intros (Hp & Hh & He & Ht) Hd Hk Hf new_path created. subst new_path created.
  unfold spec_destination, spec_filename, spec_resolved_id, spec_resolved_extension.
  split; [|by repeat split].
  destruct s as [m w]; cbn [self world] in *.
  destruct id_, tmp;
    run_m ltac:(rewrite ?Hp, ?Hh, ?Hk, ?He, ?Hd, ?Ht, ?Hf); reflexivity.
Qed.

(** X5: on Windows a key that the file-name check rejects makes
    [bind_to_run] raise [ValueError] on an attached object, before the run
    is looked at (even a missing run), and nothing changes. *)
Theorem bind_to_run_rejected_key s run key step id_ path sha :
  _path (self s) = Some path -> _sha256 (self s) = Some sha ->
  SYS_PLATFORM = "Windows" ->
  check_windows_valid_filename key = false ->
  bind run key step id_ s = (s, Raise ValueError).
Proof.
  intros Hp Hh Hw Hc. destruct s as [m w]; cbn [self world] in *.
  assert (String.eqb SYS_PLATFORM "Windows" = true) as Hw' by (by apply String.eqb_eq).
  run_m ltac:(rewrite ?Hp, ?Hh, ?Hw', ?Hc). reflexivity.
Qed.

(** The ways through [bind_to_run], by what the state holds. *)
Ltac on_file m w :=
  match goal with
  | Hp : _path m = Some ?p |- _ => destruct (file_at w p) eqn:?Hf
  end.

Ltac bind_cases m w run key id_ :=
  destruct (_path m) as [?path|] eqn:?Hp;
  [ destruct (_sha256 m) eqn:?Hh;
    [ destruct (String.eqb SYS_PLATFORM "Windows"
                && negb (check_windows_valid_filename key)) eqn:?Hk;
      [ | destruct run as [?r|];
          [ destruct (_extension m) eqn:?He;
            [ destruct id_;
              (destruct (cls_media_subdir (cls m)) eqn:?Hd;
               [ destruct (_is_tmp m) as [[|]|] eqn:?Ht; [ on_file m w | on_file m w | ] | ])
            | ]
          | ] ]
    | ]
  | ].

(** X6: whatever [bind_to_run] does, and whether it returns or raises, it
    leaves the class, the digest, the size, the caption, the extension and
    the source artifact of the object as they were; so the object is equal
    to the same objects as before, by [__eq__] and by [==]. *)
Theorem bind_to_run_keeps_identity s run key step id_ :
  let m' := self (fst (bind run key step id_ s)) in
  cls m' = cls (self s)
  /\ _sha256 m' = _sha256 (self s)
  /\ _size m' = _size (self s)
  /\ _caption m' = _caption (self s)
  /\ _extension m' = _extension (self s)
  /\ _artifact_source m' = _artifact_source (self s)
  /\ forall other,
       __eq__ m' other = __eq__ (self s) other
       /\ __eq__ other m' = __eq__ other (self s)
       /\ py_eq m' other = py_eq (self s) other
       /\ py_eq other m' = py_eq other (self s).
Proof.
  intros m'.
  assert (cls m' = cls (self s) /\ _sha256 m' = _sha256 (self s)
          /\ _size m' = _size (self s) /\ _caption m' = _caption (self s)
          /\ _extension m' = _extension (self s)
          /\ _artifact_source m' = _artifact_source (self s)) as H.
  { subst m'. destruct s as [m w]; cbn [self world] in *.
    bind_cases m w run key id_;
      run_m ltac:(rewrite ?Hp, ?Hh, ?Hk, ?He, ?Hd, ?Ht, ?Hf);
      try (by repeat split);
      match goal with
      | |- context [String.eqb ?a ?b] =>
          destruct (String.eqb a b); run_m idtac; by repeat split
      end. }
  destruct H as (Hc & Hh & Hs & Hcap & He & Hsrc).
  repeat split; try done; unfold py_eq, __eq__; by rewrite Hc, Hh.
Qed.

(** X7: whatever [bind_to_run] does, and whether it returns or raises, no
    file other than the one the object points at disappears: a path that
    does not name that file still names a file. *)
Theorem bind_to_run_keeps_files s run key step id_ q data :
  (forall p, _path (self s) = Some p -> samefile (world s) q p = false) ->
  file_at (world s) q = Some data ->
  is_Some (file_at (world (fst (bind run key step id_ s))) q).
Proof.
  intros Hq Hfq. destruct s as [m w]; cbn [self world] in *.
  assert (forall p (d : list Byte.byte) dst,
             _path m = Some p ->
             is_Some (<[dst := d]> (delete (realpath w p) (files w)) !! realpath w q))
    as Hmove.
  { intros p d dst Hp. specialize (Hq p Hp). apply String.eqb_neq in Hq.
    destruct (decide (dst = realpath w q)) as [->|Hne].
    - rewrite lookup_insert_eq. eauto.
    - rewrite lookup_insert_ne by done. rewrite lookup_delete_ne by congruence. eauto. }
  assert (forall (d : list Byte.byte) dst,
             is_Some (<[dst := d]> (files w) !! realpath w q)) as Hcopy.
  { intros d dst. destruct (decide (dst = realpath w q)) as [->|Hne].
    - rewrite lookup_insert_eq. eauto.
    - rewrite lookup_insert_ne by done. eauto. }
  assert (is_Some (files w !! realpath w q)) as Hsame by eauto.
  clear Hq.
  bind_cases m w run key id_;
    run_m ltac:(rewrite ?Hp, ?Hh, ?Hk, ?He, ?Hd, ?Ht, ?Hf);
    try (by eauto);
    match goal with
    | |- context [String.eqb ?a ?b] =>
        destruct (String.eqb a b); run_m idtac; by eauto
    end.
Qed.

(** X8: [bind_to_run] cannot be repeated. After a successful call on an
    object with an explicit extension, the same call once more raises
    [SameFileError], the file being at the destination already; no file
    changes and the run is not notified again. *)
Theorem bind_to_run_twice s s1 r key step id_ path sha e tmp subdir data :
  attached_with (self s) path sha (Some e) tmp ->
  cls_media_subdir (cls (self s)) = Some subdir ->
  key_accepted key ->
  file_at (world s) path = Some data ->
  bind (Some r) key step id_ s = (s1, Ok tt) ->
  exists s2,
    bind (Some r) key step id_ s1 = (s2, Raise SameFileError)
    /\ self s2 = self s1
    /\ files (world s2) = files (world s1)
    /\ tracked (world s2) = tracked (world s1).
Proof.
  intros Ha Hd Hk Hf Hrun.
  set (rel := spec_destination subdir key step (spec_resolved_id id_ sha) e).
  set (new_path := PosixPath.join (run_dir r) [rel]).
  assert (attached_with (self s1) new_path sha (Some e) false
          /\ cls (self s1) = cls (self s)
          /\ _run (self s1) = Some r
          /\ file_at (world s1) new_path = Some data) as (Ha1 & Hc1 & Hr1 & Hf1).
  { pose proof Ha as (Hp & Hh & He & Ht). destruct tmp.
    - rewrite (bind_to_run_move _ _ s r key step id_ _ _ _ _ _ Ha Hd Hk Hf) in Hrun.
      injection Hrun as <-. unfold file_at. cbn [self world files realpath].
      split; [repeat split; done|]. split; [done|]. split; [done|].
      apply lookup_insert_eq.
    - rewrite (bind_to_run_copy _ _ s r key step id_ _ _ _ _ _ Ha Hd Hk Hf) in Hrun.
      cbv zeta in Hrun.
      match type of Hrun with
      | context [samefile ?w ?a ?b] => destruct (samefile w a b)
      end; [discriminate Hrun|].
      injection Hrun as <-. unfold file_at. cbn [self world files realpath].
      split; [repeat split; done|]. split; [done|]. split; [done|].
      apply lookup_insert_eq. }
  assert (cls_media_subdir (cls (self s1)) = Some subdir) as Hd1 by (by rewrite Hc1).
  pose proof (bind_to_run_copy _ _ s1 r key step id_ _ _ _ _ _ Ha1 Hd1 Hk Hf1) as H2.
  cbv zeta in H2. cbn [spec_resolved_extension] in H2.
  fold rel new_path in H2. unfold samefile in H2. rewrite String.eqb_refl in H2.
  eexists. split; [exact H2|]. cbn [self world files tracked].
  split; [|done].
  destruct s1 as [m1 w1]. cbn [self] in *. destruct m1. cbn in Hr1. by rewrite Hr1.
Qed.

(** X25: a file that is not temporary is never copied onto itself. When
    the path of the object names the file at the destination, under
    whatever spelling, [bind_to_run] raises [SameFileError]: the run is
    recorded, but [_path] is as before, no file has changed and the run
    has not been notified. *)
Theorem bind_to_run_same_file s r key step id_ path sha ext subdir data :
  attached_with (self s) path sha ext false ->
  cls_media_subdir (cls (self s)) = Some subdir ->
  key_accepted key ->
  file_at (world s) path = Some data ->
  let new_path :=
    PosixPath.join (run_dir r)
      [spec_destination subdir key step (spec_resolved_id id_ sha)
         (spec_resolved_extension ext path)] in
  samefile (world s) path new_path = true ->
  exists s',
    bind (Some r) key step id_ s = (s', Raise SameFileError)
    /\ _run (self s') = Some r
    /\ _path (self s') = Some path
    /\ files (world s') = files (world s)
    /\ tracked (world s') = tracked (world s).
Proof.
  intros Ha Hd Hk Hf new_path Hsame.
  pose proof (bind_to_run_copy _ _ s r key step id_ _ _ _ _ _ Ha Hd Hk Hf) as Hc.
  cbv zeta in Hc. fold new_path in Hc. rewrite Hsame in Hc.
  eexists. split; [exact Hc|]. cbn [self world files tracked].
  destruct Ha as (Hp & _). by repeat split.
Qed.

(** X26: a temporary file that is the file at the destination already is
    renamed onto itself. [bind_to_run] returns, the file is where it was,
    with the bytes it had, and no file has changed; [_path] is the
    destination, [_is_tmp] is false and the run has been notified. *)
Theorem bind_to_run_in_place s r key step id_ path sha ext subdir data :
  attached_with (self s) path sha ext true ->
  cls_media_subdir (cls (self s)) = Some subdir ->
  key_accepted key ->
  file_at (world s) path = Some data ->
  let rel := spec_destination subdir key step (spec_resolved_id id_ sha)
               (spec_resolved_extension ext path) in
  let new_path := PosixPath.join (run_dir r) [rel] in
  samefile (world s) path new_path = true ->
  exists s',
    bind (Some r) key step id_ s = (s', Ok tt)
    /\ files (world s') = files (world s)
    /\ file_at (world s') path = Some data
    /\ _path (self s') = Some new_path
    /\ _is_tmp (self s') = Some false
    /\ tracked (world s') = (tracked (world s) ++ [rel])%list.
Proof.
  intros Ha Hd Hk Hf rel new_path Hsame%String.eqb_eq.
  eexists. split; [apply (bind_to_run_move _ _ s r key step id_ _ _ _ _ _ Ha Hd Hk Hf)|].
  fold rel new_path. unfold file_at in *. cbn [self world files tracked realpath].
  rewrite <- Hsame, insert_delete_id by done. by repeat split.
Qed.

End BindToRunErrors.

(** X9: off Windows the file-name check plays no part: [bind_to_run] does
    the same whatever the check would say. *)
Theorem bind_to_run_check_unused platform check1 check2 run key step id_ s :
  platform <> "Windows" ->
  bind_to_run platform check1 run key step id_ s
  = bind_to_run platform check2 run key step id_ s.
Proof.
  intros Hw%String.eqb_neq. unfold bind_to_run. by rewrite Hw.
Qed.

Section StaleState.

Variable SYS_PLATFORM : string.
Variable check_windows_valid_filename : PyVal -> bool.

Local Abbreviation bind := (bind_to_run SYS_PLATFORM check_windows_valid_filename)
  (only parsing).
Local Abbreviation key_accepted key :=
  (String.eqb SYS_PLATFORM "Windows" && negb (check_windows_valid_filename key) = false)
  (only parsing).

(** X10: an object whose first [_set_file] failed on the extension has a
    path but no digest; [file_is_set] then raises [AttributeError] on it,
    and so does [bind_to_run], which changes nothing. *)
Theorem failed_attach_then_use s path is_tmp e run key step id_ :
  _sha256 (self s) = None ->
  PyStr.endswith path e = false ->
  let s1 := fst (_set_file path is_tmp (Some e) s) in
  snd (_set_file path is_tmp (Some e) s) = Raise ValueError
  /\ file_is_set s1 = (s1, Raise AttributeError)
  /\ bind run key step id_ s1 = (s1, Raise AttributeError).
Proof.
  intros Hh He s1.
  assert (_set_file path is_tmp (Some e) s
          = ({| self := set_extension (Some (Some e))
                          (set_is_tmp (Some is_tmp) (set_path (Some path) (self s)));
                world := world s |}, Raise ValueError)) as Hrun.
  { unfold_m. simpl. rewrite He. simpl. done. }
  subst s1. rewrite Hrun. cbn [fst snd]. split; [done|].
  destruct s as [m w]; cbn [self world] in *.
  split; run_m ltac:(rewrite ?Hh); reflexivity.
Qed.

(** X11: the digest is never checked against the file. When [_set_file],
    called for a temporary file, fails on the extension on an object that
    was attached before, the object points at the new file but keeps the
    old digest, and a later [bind_to_run] relocates the new file under the
    old digest. *)
Theorem failed_reattach_then_bind s r key step id_ old_path sha ext tmp
    path e subdir data :
  attached_with (self s) old_path sha ext tmp ->
  cls_media_subdir (cls (self s)) = Some subdir ->
  key_accepted key ->
  PyStr.endswith path e = false ->
  file_at (world s) path = Some data ->
  let s1 := fst (_set_file path true (Some e) s) in
  let rel := spec_destination subdir key step (spec_resolved_id id_ sha) e in
  let new_path := PosixPath.join (run_dir r) [rel] in
  snd (_set_file path true (Some e) s) = Raise ValueError
  /\ exists s2,
       bind (Some r) key step id_ s1 = (s2, Ok tt)
       /\ _sha256 (self s2) = Some sha
       /\ _path (self s2) = Some new_path
       /\ file_at (world s2) new_path = Some data.
Proof.
  intros (Hp & Hh & Hext & Ht) Hd Hk He Hf s1 rel new_path.
  assert (_set_file path true (Some e) s
          = ({| self := set_extension (Some (Some e))
                          (set_is_tmp (Some true) (set_path (Some path) (self s)));
                world := world s |}, Raise ValueError)) as Hrun.
  { unfold_m. simpl. rewrite He. simpl. done. }
  subst s1. rewrite Hrun. cbn [fst snd]. split; [done|].
  eexists. split.
  - apply (bind_to_run_move SYS_PLATFORM check_windows_valid_filename _ r key step id_
             path sha (Some e) subdir data); done.
  - unfold file_at. cbn [self world files realpath].
    repeat split; try done. apply lookup_insert_eq.
Qed.

End StaleState.

(** ** [from_json] *)

(** X20: [from_json] on the class [Media] itself. A descriptor without
    [path] raises [KeyError] before anything is downloaded, and a failing
    download fails [from_json] the same way. Otherwise the local path of
    the downloaded file goes to the constructor as the caption: the object
    has that caption and no file, so it is equal to no object, the
    serialised one included, by [__eq__] and by [==]. *)
Theorem from_json_media download json_obj source_artifact w :
  (dict_get "path" json_obj = None ->
   from_json Media_new download json_obj source_artifact w = (w, Raise KeyError))
  /\ (forall name w' e,
         dict_get "path" json_obj = Some name ->
         download source_artifact name w = (w', Raise e) ->
         from_json Media_new download json_obj source_artifact w = (w', Raise e))
  /\ (forall name w' local,
         dict_get "path" json_obj = Some name ->
         download source_artifact name w = (w', Ok local) ->
         exists m,
           from_json Media_new download json_obj source_artifact w = (w', Ok m)
           /\ _caption m = Some local
           /\ _path m = None /\ _sha256 m = None /\ _run m = None
           /\ forall other,
                __eq__ m other = false /\ __eq__ other m = false
                /\ py_eq m other = false /\ py_eq other m = false).
Proof.
  unfold from_json. repeat split.
  - by intros ->.
  - intros name w' e -> Hd. by rewrite Hd.
  - intros name w' local -> Hd. rewrite Hd. eexists. split; [reflexivity|].
    assert (forall other,
              __eq__ (Media_init Media_class (Some local)) other = false
              /\ __eq__ other (Media_init Media_class (Some local)) = false) as Heq.
    { intros other. unfold __eq__. cbn [Media_init _sha256]. split.
      - apply andb_false_r.
      - destruct (_sha256 other); apply andb_false_r. }
    repeat split; try reflexivity; try apply Heq;
      unfold py_eq; destruct (is_proper_subclass _ _); apply Heq.
Qed.

(** ** [_wb_filename] *)

(** X21: the file name does not tell the key from the step: an underscore
    in one or the other is not told from the separating one, and an
    integer is not told from the string of its digits. *)
Theorem wb_filename_ambiguous :
  (forall k s t id e,
      _wb_filename (VStr (k ++ "_" ++ s)) (VStr t) id e
      = _wb_filename (VStr k) (VStr (s ++ "_" ++ t)) id e)
  /\ (forall n step id e,
         _wb_filename (VInt n) step id e
         = _wb_filename (VStr (PyStr.of_int n)) step id e).
Proof.
  split; [|reflexivity].
  intros k s t id e. unfold _wb_filename. cbn [py_str].
  by rewrite !append_assoc.
Qed.

Lemma uint_no_underscore d :
  PyStr.contains "_" (NilEmpty.string_of_uint d) = false.
Proof. induction d; simpl; done. Qed.

Lemma of_int_no_underscore n : PyStr.contains "_" (PyStr.of_int n) = false.
Proof.
  unfold PyStr.of_int, NilZero.string_of_int, NilZero.string_of_uint.
  destruct (Z.to_int n) as [d|d]; destruct d;
    try reflexivity; apply uint_no_underscore.
Qed.

Lemma of_int_inj a b : PyStr.of_int a = PyStr.of_int b -> a = b.
Proof.
  intros H. apply DecimalZ.to_int_inj.
  assert (forall n, NilZero.int_of_string (PyStr.of_int n) = Some (Z.to_int n)) as Hp.
  { intros n. apply NilZero.isi.
    - destruct n; simpl; try done. intros [= E]. by apply DecimalPos.Unsigned.to_uint_nonnil in E.
    - destruct n; simpl; try done. intros [= E]. by apply DecimalPos.Unsigned.to_uint_nonnil in E. }
  pose proof (Hp a) as Ha. rewrite H, Hp in Ha. by injection Ha.
Qed.

(** Two strings cut at their first underscore. *)
Lemma cut_at_underscore a b x y :
  PyStr.contains "_" a = false -> PyStr.contains "_" b = false ->
  a ++ "_" ++ x = b ++ "_" ++ y -> a = b /\ x = y.
Proof.
  revert b; induction a as [|c a IH]; intros [|d b] Ha Hb H.
  - change (String "_" x = String "_" y) in H. by injection H as ->.
  - change (String "_" x = String d (b ++ "_" ++ y)) in H. injection H as <- _.
    simpl in Hb. discriminate Hb.
  - change (String c (a ++ "_" ++ x) = String "_" y) in H. injection H as -> _.
    simpl in Ha. discriminate Ha.
  - change (String c (a ++ "_" ++ x) = String d (b ++ "_" ++ y)) in H.
    injection H as -> E.
    simpl in Ha, Hb. apply orb_false_iff in Ha as [_ Ha], Hb as [_ Hb].
    destruct (IH b Ha Hb E) as [-> ->]. done.
Qed.

(** X22: with integers for key and step, the file name does tell them: two
    names that are equal have the same key, the same step, and the same
    rest. *)
Theorem wb_filename_integers k1 s1 k2 s2 id1 id2 e1 e2 :
  _wb_filename (VInt k1) (VInt s1) id1 e1 = _wb_filename (VInt k2) (VInt s2) id2 e2 ->
  k1 = k2 /\ s1 = s2 /\ py_str id1 ++ e1 = py_str id2 ++ e2.
Proof.
  unfold _wb_filename. cbn [py_str]. intros H.
  apply cut_at_underscore in H as [Hk H]; try apply of_int_no_underscore.
  apply cut_at_underscore in H as [Hs H]; try apply of_int_no_underscore.
  split; [by apply of_int_inj|]. split; [by apply of_int_inj|done].
Qed.

(** ** The further properties on the sample data *)

Lemma bind_to_run_unattached_witness :
  _path (self Samples.fresh) = None
  /\ Cases.bind (Some Samples.run1) (VStr "img") (VInt 0) None Samples.fresh
     = (Samples.fresh, Raise AssertionError).
Proof.
  split; [reflexivity|].
  exact (bind_to_run_unattached Samples.platform Samples.any_filename Samples.fresh
           (Some Samples.run1) (VStr "img") (VInt 0) None eq_refl).
Defined.

Lemma bind_to_run_no_run_witness :
  Cases.bind None (VStr "img") (VInt 0) None Cases.staged_image
  = (Cases.staged_image, Raise TypeError).
Proof.
  exact (bind_to_run_no_run Samples.platform Samples.any_filename Cases.staged_image
           (VStr "img") (VInt 0) None Samples.staged Samples.ten_bytes_sha
           eq_refl eq_refl eq_refl).
Defined.

Lemma bind_to_run_abstract_kind_witness :
  Cases.bind (Some Samples.run1) (VStr "img") (VInt 0) None Cases.plain
  = ({| self := set_run (Some Samples.run1) (self Cases.plain);
        world := world Cases.plain |}, Raise NotImplementedError).
Proof.
  exact (proj1 (bind_to_run_abstract_kind Samples.platform Samples.any_filename
                  Cases.plain Samples.run1 (VStr "img") (VInt 0) None Samples.staged
                  Samples.ten_bytes_sha None eq_refl eq_refl eq_refl eq_refl eq_refl)).
Defined.

Lemma bind_to_run_missing_file_witness :
  snd (Cases.bind (Some Samples.run1) (VStr "img") (VInt 0) None Cases.vanished)
  = Raise FileNotFoundError
  /\ files (world (fst (Cases.bind (Some Samples.run1) (VStr "img") (VInt 0) None
                          Cases.vanished)))
     = files (world Cases.vanished).
Proof.
  pose proof (bind_to_run_missing_file Samples.platform Samples.any_filename
                Cases.vanished Samples.run1 (VStr "img") (VInt 0) None
                "/tmp/wandb-media/gone.png" Samples.ten_bytes_sha None true
                "media/images"
                (conj eq_refl (conj eq_refl (conj eq_refl eq_refl)))
                eq_refl eq_refl eq_refl) as H.
  cbv zeta in H. destruct H as (H & _).
  unfold Cases.bind. rewrite H. split; reflexivity.
Defined.

Lemma bind_to_run_rejected_key_witness :
  Cases.no_colon (VStr "a:b") = false
  /\ bind_to_run Cases.windows Cases.no_colon None (VStr "a:b") (VInt 0) None
       Cases.staged_image
     = (Cases.staged_image, Raise ValueError).
Proof.
  split; [reflexivity|].
  exact (bind_to_run_rejected_key Cases.windows Cases.no_colon Cases.staged_image None
           (VStr "a:b") (VInt 0) None Samples.staged Samples.ten_bytes_sha
           eq_refl eq_refl eq_refl eq_refl).
Defined.

Lemma bind_to_run_keeps_files_witness :
  is_Some (file_at (world (fst (Cases.bind (Some Samples.run1) (VStr "img") (VInt 0) None
                                  Cases.beside)))
             "/data/./notes.txt").
Proof.
  apply (bind_to_run_keeps_files Samples.platform Samples.any_filename Cases.beside
           (Some Samples.run1) (VStr "img") (VInt 0) None "/data/./notes.txt"
           (list_byte_of_string "notes")).
  - intros p [= <-]. reflexivity.
  - reflexivity.
Defined.

Lemma bind_to_run_twice_witness :
  exists s1 s2,
    Cases.bind (Some Samples.run1) (VStr "img") (VInt 0) None Cases.explicit = (s1, Ok tt)
    /\ Cases.bind (Some Samples.run1) (VStr "img") (VInt 0) None s1
       = (s2, Raise SameFileError).
Proof.
  set (s1 := fst (Cases.bind (Some Samples.run1) (VStr "img") (VInt 0) None
                    Cases.explicit)).
  assert (Cases.bind (Some Samples.run1) (VStr "img") (VInt 0) None Cases.explicit
          = (s1, Ok tt)) as H1 by (vm_compute; reflexivity).
  destruct (bind_to_run_twice Samples.platform Samples.any_filename Cases.explicit s1
              Samples.run1 (VStr "img") (VInt 0) None Samples.staged
              Samples.ten_bytes_sha ".png" true "media/images" Samples.ten_bytes
              (conj eq_refl (conj eq_refl (conj eq_refl eq_refl)))
              eq_refl eq_refl eq_refl H1) as (s2 & H2 & _).
  exists s1, s2. split; [exact H1|exact H2].
Defined.

Lemma bind_to_run_check_unused_witness :
  bind_to_run Samples.platform Samples.any_filename (Some Samples.run1) (VStr "a:b")
    (VInt 0) None Cases.staged_image
  = bind_to_run Samples.platform Cases.no_colon (Some Samples.run1) (VStr "a:b")
      (VInt 0) None Cases.staged_image.
Proof.
  apply bind_to_run_check_unused. intros H; discriminate H.
Defined.

Lemma failed_attach_then_use_witness :
  let s1 := fst (_set_file Samples.staged true (Some ".jpg") Samples.fresh) in
  file_is_set s1 = (s1, Raise AttributeError)
  /\ Cases.bind (Some Samples.run1) (VStr "img") (VInt 0) None s1
     = (s1, Raise AttributeError).
Proof.
  exact (proj2 (failed_attach_then_use Samples.platform Samples.any_filename
                  Samples.fresh Samples.staged true ".jpg" (Some Samples.run1)
                  (VStr "img") (VInt 0) None eq_refl eq_refl)).
Defined.

Lemma failed_reattach_then_bind_witness :
  exists s2,
    Cases.bind (Some Samples.run1) (VStr "img") (VInt 0) None
      (fst (_set_file Samples.staged true (Some ".jpg") Cases.staged_image))
    = (s2, Ok tt)
    /\ _sha256 (self s2) = Some Samples.ten_bytes_sha
    /\ _path (self s2)
       = Some "/runs/r1/files/media/images/img_0_84d89877f0d4041efb6b.jpg".
Proof.
  destruct (failed_reattach_then_bind Samples.platform Samples.any_filename
              Cases.staged_image Samples.run1 (VStr "img") (VInt 0) None
              Samples.staged Samples.ten_bytes_sha None true Samples.staged ".jpg"
              "media/images" Samples.ten_bytes
              (conj eq_refl (conj eq_refl (conj eq_refl eq_refl)))
              eq_refl eq_refl eq_refl eq_refl)
    as (_ & s2 & H2 & Hsha & Hpath & _).
  exists s2. split; [exact H2|]. split; [exact Hsha|exact Hpath].
Defined.

Lemma bind_to_run_same_file_witness :
  exists s',
    Cases.bind (Some Samples.run1) (VStr "img") (VInt 0) (Some (VStr "x"))
      Samples.spelled_in_place
    = (s', Raise SameFileError)
    /\ files (world s') = files (world Samples.spelled_in_place).
Proof.
  destruct (bind_to_run_same_file Samples.platform Samples.any_filename
              Samples.spelled_in_place Samples.run1 (VStr "img") (VInt 0)
              (Some (VStr "x")) "/runs/r1//files/media/images/img_0_x.png"
              Samples.ten_bytes_sha None "media/images" Samples.ten_bytes
              (conj eq_refl (conj eq_refl (conj eq_refl eq_refl)))
              eq_refl eq_refl eq_refl eq_refl)
    as (s' & Hrun & _ & _ & Hfiles & _).
  exists s'. split; [exact Hrun|exact Hfiles].
Defined.

Lemma bind_to_run_in_place_witness :
  exists s',
    Cases.bind (Some Samples.run1) (VStr "img") (VInt 0) (Some (VStr "x"))
      Cases.staged_at_destination
    = (s', Ok tt)
    /\ file_at (world s') "/runs/r1//files/media/images/img_0_x.png"
       = Some Samples.ten_bytes
    /\ _is_tmp (self s') = Some false.
Proof.
  destruct (bind_to_run_in_place Samples.platform Samples.any_filename
              Cases.staged_at_destination Samples.run1 (VStr "img") (VInt 0)
              (Some (VStr "x")) "/runs/r1//files/media/images/img_0_x.png"
              Samples.ten_bytes_sha None "media/images" Samples.ten_bytes
              (conj eq_refl (conj eq_refl (conj eq_refl eq_refl)))
              eq_refl eq_refl eq_refl eq_refl)
    as (s' & Hrun & _ & Hfile & _ & Htmp & _).
  exists s'. split; [exact Hrun|]. split; [exact Hfile|exact Htmp].
Defined.

Lemma wb_filename_integers_witness :
  _wb_filename (VInt 3) (VInt 12) (VStr "ab") ".png"
  = _wb_filename (VInt 3) (VInt 12) (VStr "a") "b.png"
  /\ (3 = 3 /\ 12 = 12 /\ py_str (VStr "ab") ++ ".png" = py_str (VStr "a") ++ "b.png").
Proof.
  split; [reflexivity|].
  exact (wb_filename_integers 3 12 3 12 (VStr "ab") (VStr "a") ".png" "b.png" eq_refl).
Defined.

Lemma set_file_attaches_witness :
  attached_with (self (fst (_set_file Samples.staged true None Samples.fresh)))
    Samples.staged (Sha256.hexdigest Samples.ten_bytes) None true
  /\ Sha256.is_hexdigest (Sha256.hexdigest Samples.ten_bytes) = true.
Proof.
  exact (set_file_attaches Samples.staged true None Samples.fresh Samples.ten_bytes
           eq_refl I).
Defined.
